(** * Real Estate API: the listing search of [main.py]

    A shallow embedding of [list_properties] (the [GET /properties] route),
    of the [PropertyResponse] model it builds, and of the two collaborators
    the route talks to: the query-parameter binding declared in its
    signature and the document store that evaluates the filter document.

    Layout: Python values and dictionaries; text and the regular expressions
    of the filter; raw records; filter documents and their evaluation by
    the store; the two routes; then the theorems. *)

From Stdlib Require Import ZArith NArith List Bool Ascii String Lia SpecFloat.
Import ListNotations.

Local Open Scope string_scope.
Local Open Scope list_scope.
Local Open Scope Z_scope.

(** ** Python values *)

(** A Python [float] is an IEEE-754 double: zero, infinity, NaN or a finite
    number.  Only comparisons are ever applied to one here. *)
Definition float := spec_float.

(** The literal [0.0]. *)
Definition float_zero : float := S754_zero false.

(** Python's [a <= b] on floats (false as soon as one side is NaN). *)
Definition float_le (a b : float) : bool := SFleb a b.

(** Python's [a < b] on floats. *)
Definition float_lt (a b : float) : bool := SFltb a b.

(** Truthiness of an [Optional[str]]: [if q:] holds when [q] is neither
    [None] nor the empty string. *)
Definition truthy (o : option string) : bool :=
  match o with
  | Some (String _ _) => true
  | _ => false
  end.

(** A Python [dict] with string keys: insertion-ordered, one entry per key;
    [d[k] = v] replaces the value of an existing key and appends a new one. *)
Module PyDict.

Definition dict (V : Type) : Type := list (string * V).

Definition empty {V : Type} : dict V := [].

Fixpoint set {V : Type} (d : dict V) (k : string) (v : V) : dict V :=
  match d with
  | [] => [(k, v)]
  | (k', v') :: rest =>
      if String.eqb k k' then (k', v) :: rest else (k', v') :: set rest k v
  end.

Fixpoint get {V : Type} (d : dict V) (k : string) : option V :=
  match d with
  | [] => None
  | (k', v') :: rest => if String.eqb k k' then Some v' else get rest k
  end.

End PyDict.

(** ** Text

    A Python [str] is a sequence of characters.  The driver and the store
    hold it in UTF-8, and so does a [string] here; the characters of a text
    are its code points, which the regular expressions of the store work
    on. *)
Module Utf8.

Definition byte (c : ascii) : N := N_of_ascii c.

(** A byte below 128 is a character of its own. *)
Definition single (c : ascii) : bool := (byte c <? 128)%N.

(** A byte of the form 10xxxxxx continues a character. *)
Definition continuation (c : ascii) : bool :=
  ((128 <=? byte c)%N && (byte c <? 192)%N)%bool.

(** The bytes of a text, one group per character: a byte above 127 takes
    the continuation bytes that follow it. *)
Fixpoint groups (s : string) : list string :=
  match s with
  | EmptyString => []
  | String c s' =>
      match s' with
      | String c' _ =>
          if (negb (single c) && continuation c')%bool then
            match groups s' with
            | g :: gs => String c g :: gs
            | [] => [String c EmptyString]
            end
          else String c EmptyString :: groups s'
      | EmptyString => [String c EmptyString]
      end
  end.

(** The bits a leading byte contributes. *)
Definition payload (c : ascii) : N :=
  let b := byte c in
  if (b <? 192)%N then b
  else if (b <? 224)%N then (b - 192)%N
  else if (b <? 240)%N then (b - 224)%N
  else (b - 240)%N.

(** Six more bits per continuation byte. *)
Fixpoint extend (acc : N) (s : string) : N :=
  match s with
  | EmptyString => acc
  | String c s' => extend (acc * 64 + (byte c - 128))%N s'
  end.

Definition codepoint (g : string) : N :=
  match g with
  | EmptyString => 0%N
  | String c s' => extend (payload c) s'
  end.

(** The characters of a text. *)
Definition decode (s : string) : list N := map codepoint (groups s).

End Utf8.

(** ** Letter case *)

(** The letters [A] to [Z] in lower case; any other character is left as
    it is. *)
Definition lower (c : N) : N :=
  if ((65 <=? c)%N && (c <=? 90)%N)%bool then (c + 32)%N else c.

(** ** The regular-expression engine of the store

    The store evaluates [$regex] with a Perl-compatible engine.  Two things
    are taken from it as they are: [fold], the table by which it identifies
    letters beyond those of ASCII in a caseless match, and [beyond], what it
    makes of a pattern or of options outside the fragment modelled in
    [Regex] below: a test on texts, or [None] when it refuses them. *)
Module Engine.

Record t : Type := {
  fold : N -> N;
  beyond : string -> string -> option (string -> bool)
}.

(** Two characters match caselessly when they have the same image: the
    two cases of an ASCII letter do, and so do the characters the table
    sends to one. *)
Definition canon (E : t) (c : N) : N := fold E (lower c).

End Engine.

(** ** The regular expressions of the filter

    The fragment modelled here is the one the route's patterns are made of
    when the client's text is plain: literal characters, [.], and the
    anchors [^] and [$], with no option or the option [i].  Everything else
    is the engine's. *)
Module Regex.

Inductive atom : Type :=
| Lit (c : N)       (* a literal character *)
| Dot               (* [.]: any character but a newline *)
| Caret             (* [^]: start of the subject *)
| Dollar.           (* [$]: end of the subject, or before a final newline *)

Definition newline : N := 10%N.

(** The characters with a special meaning outside a character class,
    [\ ^ $ . [ | ( ) ? * + {], and the null character, which the store
    takes in no pattern. *)
Definition metachars : list N :=
  [92; 94; 36; 46; 91; 124; 40; 41; 63; 42; 43; 123; 0]%N.

Definition metachar (c : N) : bool := existsb (N.eqb c) metachars.

Definition parse_char (c : N) : option atom :=
  if (c =? 46)%N then Some Dot
  else if (c =? 94)%N then Some Caret
  else if (c =? 36)%N then Some Dollar
  else if metachar c then None
  else Some (Lit c).

Fixpoint parse (p : list N) : option (list atom) :=
  match p with
  | [] => Some []
  | c :: p' =>
      match parse_char c, parse p' with
      | Some a, Some r => Some (a :: r)
      | _, _ => None
      end
  end.

(** [$options]: the empty string, or ["i"] for caseless matching. *)
Definition parse_options (o : string) : option bool :=
  if String.eqb o EmptyString then Some false
  else if String.eqb o "i" then Some true
  else None.

Definition char_eq (fold : N -> N) (caseless : bool) (c x : N) : bool :=
  if caseless then (fold c =? fold x)%N else (c =? x)%N.

Definition at_end (s : list N) : bool :=
  match s with
  | [] => true
  | [c] => (c =? newline)%N
  | _ => false
  end.

(** The atoms [r] match a prefix of [s]; [bol] tells whether [s] starts at
    the beginning of the subject. *)
Fixpoint match_here (fold : N -> N) (caseless : bool) (r : list atom)
         (bol : bool) (s : list N) : bool :=
  match r with
  | [] => true
  | Lit c :: r' =>
      match s with
      | x :: s' =>
          (char_eq fold caseless c x && match_here fold caseless r' false s')%bool
      | [] => false
      end
  | Dot :: r' =>
      match s with
      | x :: s' =>
          (negb (x =? newline)%N && match_here fold caseless r' false s')%bool
      | [] => false
      end
  | Caret :: r' => (bol && match_here fold caseless r' bol s)%bool
  | Dollar :: r' => (at_end s && match_here fold caseless r' bol s)%bool
  end.

(** Unanchored search: the atoms match at some position of [s]. *)
Fixpoint search_from (fold : N -> N) (caseless : bool) (r : list atom)
         (bol : bool) (s : list N) : bool :=
  (match_here fold caseless r bol s
   || match s with
      | [] => false
      | _ :: s' => search_from fold caseless r false s'
      end)%bool.

(** [{"$regex": pattern, "$options": options}] as a test on texts; [None]
    when the engine refuses the pattern. *)
Definition compile (E : Engine.t) (pattern options : string)
  : option (string -> bool) :=
  match parse (Utf8.decode pattern), parse_options options with
  | Some r, Some caseless =>
      Some (fun subject =>
              search_from (Engine.canon E) caseless r true
                (Utf8.decode subject))
  | _, _ => Engine.beyond E pattern options
  end.

Definition search (E : Engine.t) (pattern options subject : string)
  : option bool :=
  option_map (fun f => f subject) (compile E pattern options).

(** A text with none of the characters of [metachars]: as a pattern it
    denotes itself. *)
Definition plain (s : string) : bool :=
  forallb (fun c => negb (metachar c)) (Utf8.decode s).

End Regex.

(** ** Raw records

    A stored property is a schemaless document: each key of the [Property]
    schema may be missing, may hold an explicit null, or holds a value of
    the schema's type: records enter the collection through the validated
    create path, and a value of another type is outside this model.  An
    ObjectId is written as its hexadecimal string. *)

Inductive field (A : Type) : Type :=
| Missing
| Null
| Stored (a : A).

Arguments Missing {A}.
Arguments Null {A}.
Arguments Stored {A} a.

(** [d.get(key)]: the value, [None] for a missing key or a stored null. *)
Definition get {A : Type} (f : field A) : option A :=
  match f with
  | Stored a => Some a
  | Missing | Null => None
  end.

(** [d.get(key, default)]: the default replaces a missing key only. *)
Definition get_default {A : Type} (f : field A) (default : A) : option A :=
  match f with
  | Missing => Some default
  | Null => None
  | Stored a => Some a
  end.

(** What the store sees under a key. *)
Inductive value : Type :=
| VNull
| VStr (s : string)
| VInt (z : Z)
| VFloat (f : float)
| VList (l : list string).

Definition view {A : Type} (inj : A -> value) (f : field A) : option value :=
  match f with
  | Missing => None
  | Null => Some VNull
  | Stored a => Some (inj a)
  end.

Module Raw.

Record document : Type := {
  _id : field string;
  title : field string;
  status : field string;
  price : field Z;
  currency : field string;
  address : field string;
  city : field string;
  state : field string;
  country : field string;
  bedrooms : field Z;
  bathrooms : field float;
  property_type : field string;
  area_sqft : field Z;
  lot_size_sqft : field Z;
  year_built : field Z;
  parking_spaces : field Z;
  hoa_fee : field Z;
  description : field string;
  images : field (list string);
  features : field (list string)
}.

(** The value stored under a key, as the store's query engine reads it. *)
Definition lookup (key : string) (d : document) : option value :=
  if String.eqb key "_id" then view VStr (_id d)
  else if String.eqb key "title" then view VStr (title d)
  else if String.eqb key "status" then view VStr (status d)
  else if String.eqb key "price" then view VInt (price d)
  else if String.eqb key "currency" then view VStr (currency d)
  else if String.eqb key "address" then view VStr (address d)
  else if String.eqb key "city" then view VStr (city d)
  else if String.eqb key "state" then view VStr (state d)
  else if String.eqb key "country" then view VStr (country d)
  else if String.eqb key "bedrooms" then view VInt (bedrooms d)
  else if String.eqb key "bathrooms" then view VFloat (bathrooms d)
  else if String.eqb key "property_type" then view VStr (property_type d)
  else if String.eqb key "area_sqft" then view VInt (area_sqft d)
  else if String.eqb key "lot_size_sqft" then view VInt (lot_size_sqft d)
  else if String.eqb key "year_built" then view VInt (year_built d)
  else if String.eqb key "parking_spaces" then view VInt (parking_spaces d)
  else if String.eqb key "hoa_fee" then view VInt (hoa_fee d)
  else if String.eqb key "description" then view VStr (description d)
  else if String.eqb key "images" then view VList (images d)
  else if String.eqb key "features" then view VList (features d)
  else None.

End Raw.

(** ** Errors and outcomes *)

Inductive error : Type :=
| HTTPException (status_code : Z) (detail : string)
    (* raised by the route itself *)
| RequestValidationError (params : list string)
    (* the binding of the query parameters refused these parameters *)
| ValidationError (fields : list string)
    (* a model could not be built: these fields are invalid *)
| OverflowError
    (* the driver cannot encode an integer beyond eight bytes *)
| OperationFailure.
    (* the store refused the filter *)

(** A run returns or raises.  [Unmodelled] stands for a filter made of
    operators that are not modelled here; the route builds no such filter
    (lemma [covered_filter_query]) and none of its runs ends there (lemma
    [list_properties_modelled]). *)
Inductive outcome (A : Type) : Type :=
| Ok (a : A)
| Raise (e : error)
| Unmodelled.

Arguments Ok {A} a.
Arguments Raise {A} e.
Arguments Unmodelled {A}.

(** ** The response model *)

Module PropertyResponse.

Record t : Type := {
  id : string;
  title : string;
  status : string;
  price : Z;
  currency : string;
  address : string;
  city : string;
  state : option string;
  country : string;
  bedrooms : Z;
  bathrooms : float;
  property_type : string;
  area_sqft : option Z;
  lot_size_sqft : option Z;
  year_built : option Z;
  parking_spaces : option Z;
  hoa_fee : option Z;
  description : option string;
  images : list string;
  features : list string
}.

(** A field declared [str], [int], [float] or [List[str]] refuses
    [None]; the name of the field is then reported. *)
Definition invalid {A : Type} (name : string) (o : option A) : list string :=
  match o with
  | Some _ => []
  | None => [name]
  end.

(** [PropertyResponse(id=..., title=..., ...)]: the model is built when
    every field that is not declared [Optional] has a value, and the
    construction raises a validation error listing the others if not. *)
Definition new (id : string) (title status : option string)
           (price : option Z) (currency address city state country : option string)
           (bedrooms : option Z) (bathrooms : option float)
           (property_type : option string)
           (area_sqft lot_size_sqft year_built parking_spaces hoa_fee : option Z)
           (description : option string) (images features : option (list string))
  : outcome t :=
  match title, status, price, currency, address, city, country,
        bedrooms, bathrooms, property_type, images, features with
  | Some title', Some status', Some price', Some currency', Some address',
    Some city', Some country', Some bedrooms', Some bathrooms',
    Some property_type', Some images', Some features' =>
      Ok {| id := id; title := title'; status := status'; price := price';
            currency := currency'; address := address'; city := city';
            state := state; country := country'; bedrooms := bedrooms';
            bathrooms := bathrooms'; property_type := property_type';
            area_sqft := area_sqft; lot_size_sqft := lot_size_sqft;
            year_built := year_built; parking_spaces := parking_spaces;
            hoa_fee := hoa_fee; description := description;
            images := images'; features := features' |}
  | _, _, _, _, _, _, _, _, _, _, _, _ =>
      Raise (ValidationError
               (invalid "title" title ++ invalid "status" status
                ++ invalid "price" price ++ invalid "currency" currency
                ++ invalid "address" address ++ invalid "city" city
                ++ invalid "country" country ++ invalid "bedrooms" bedrooms
                ++ invalid "bathrooms" bathrooms
                ++ invalid "property_type" property_type
                ++ invalid "images" images ++ invalid "features" features))
  end.

End PropertyResponse.

(** ** Filter documents

    The filter the route hands to the store is a Python dictionary: a key
    maps to a plain value (equality), to an operator document such as
    [{"$gte": 3}] or [{"$regex": "x", "$options": "i"}], or, under [$or], to
    a list of alternative filters. *)

Inductive scalar : Type :=
| SStr (s : string)
| SInt (z : Z)
| SFloat (f : float).

Definition opdoc : Type := PyDict.dict scalar.

Inductive qvalue : Type :=
| QScalar (v : scalar)
| QOps (o : opdoc)
| QList (alts : list (PyDict.dict opdoc)).

Definition filter : Type := PyDict.dict qvalue.

(** ** The document store

    The store is consumed through [find(filter).limit(n)] on one collection.
    What follows is the documented behaviour of its query language for the
    operators the route emits ([covered] tells which filters these are), and
    of the driver that encodes the filter. *)
Module Store.

Inductive number : Type :=
| NInt (z : Z)
| NFloat (f : float).

Definition is_nan (n : number) : bool :=
  match n with
  | NFloat S754_nan => true
  | _ => false
  end.

(** An integer against a double, exactly: a finite double is [m * 2^e]. *)
Definition compare_int_float (z : Z) (f : float) : comparison :=
  match f with
  | S754_nan => Gt
  | S754_infinity s => if s then Gt else Lt
  | S754_zero _ => z ?= 0
  | S754_finite s m e =>
      let sm := if s then Z.neg m else Z.pos m in
      if 0 <=? e then z ?= sm * 2 ^ e else z * 2 ^ (- e) ?= sm
  end.

(** Numbers of both types are ordered by value; NaN equals itself and is
    below every other number. *)
Definition compare_number (a b : number) : comparison :=
  match a, b with
  | NInt x, NInt y => x ?= y
  | NInt x, NFloat g => compare_int_float x g
  | NFloat f, NInt y => CompOpp (compare_int_float y f)
  | NFloat f, NFloat g =>
      match SFcompare f g with
      | Some c => c
      | None =>
          match f, g with
          | S754_nan, S754_nan => Eq
          | S754_nan, _ => Lt
          | _, _ => Gt
          end
      end
  end.

Definition number_of_value (v : value) : option number :=
  match v with
  | VInt z => Some (NInt z)
  | VFloat f => Some (NFloat f)
  | _ => None
  end.

(** [$gte] and [$lte] against a numeric bound: only a stored number can
    match, and a NaN bound matches NaN only. *)
Definition cmp_bound (accept : comparison -> bool) (bound : number)
           (v : option value) : bool :=
  match v with
  | Some x =>
      match number_of_value x with
      | Some n =>
          if is_nan bound then is_nan n else accept (compare_number n bound)
      | None => false
      end
  | None => false
  end.

Definition is_ge (c : comparison) : bool :=
  match c with Lt => false | _ => true end.

Definition is_le (c : comparison) : bool :=
  match c with Gt => false | _ => true end.

(** A regular expression against a stored value: a string is searched, an
    array matches when one of its elements does, anything else does not. *)
Definition regex_on (f : string -> bool) (v : option value) : bool :=
  match v with
  | Some (VStr s) => f s
  | Some (VList l) => existsb f l
  | _ => false
  end.

(** [{key: literal}]: the stored value equals the literal, or is an array
    holding it. *)
Definition equals (lit : scalar) (v : option value) : bool :=
  match lit, v with
  | SStr s, Some (VStr x) => String.eqb x s
  | SStr s, Some (VList l) => existsb (fun x => String.eqb x s) l
  | SInt z, Some x =>
      match number_of_value x with
      | Some n => match compare_number n (NInt z) with Eq => true | _ => false end
      | None => false
      end
  | SFloat f, Some x =>
      match number_of_value x with
      | Some n =>
          if is_nan (NFloat f) then is_nan n
          else match compare_number n (NFloat f) with Eq => true | _ => false end
      | None => false
      end
  | _, _ => false
  end.

Definition matcher : Type := option value -> bool.

(** One entry of an operator document [o]. *)
Definition compile_op (E : Engine.t) (o : opdoc) (op : string) (arg : scalar)
  : option matcher :=
  if String.eqb op "$gte" then
    match arg with
    | SInt z => Some (cmp_bound is_ge (NInt z))
    | SFloat f => Some (cmp_bound is_ge (NFloat f))
    | SStr _ => None
    end
  else if String.eqb op "$lte" then
    match arg with
    | SInt z => Some (cmp_bound is_le (NInt z))
    | SFloat f => Some (cmp_bound is_le (NFloat f))
    | SStr _ => None
    end
  else if String.eqb op "$regex" then
    match arg, PyDict.get o "$options" with
    | SStr p, Some (SStr opts) => option_map regex_on (Regex.compile E p opts)
    | SStr p, None => option_map regex_on (Regex.compile E p EmptyString)
    | _, _ => None
    end
  else if String.eqb op "$options" then
    match PyDict.get o "$regex" with
    | Some _ => Some (fun _ => true)
    | None => None
    end
  else None.

(** Every operator of the document must hold. *)
Fixpoint compile_entries (E : Engine.t) (o : opdoc)
         (entries : list (string * scalar)) : option matcher :=
  match entries with
  | [] => Some (fun _ => true)
  | (op, arg) :: rest =>
      match compile_op E o op arg, compile_entries E o rest with
      | Some m, Some ms => Some (fun v => (m v && ms v)%bool)
      | _, _ => None
      end
  end.

Definition compile_ops (E : Engine.t) (o : opdoc) : option matcher :=
  compile_entries E o o.

Definition predicate : Type := Raw.document -> bool.

(** One alternative of [$or]: a filter of operator documents. *)
Fixpoint compile_alt (E : Engine.t) (alt : PyDict.dict opdoc)
  : option predicate :=
  match alt with
  | [] => Some (fun _ => true)
  | (key, o) :: rest =>
      match compile_ops E o, compile_alt E rest with
      | Some m, Some p => Some (fun d => (m (Raw.lookup key d) && p d)%bool)
      | _, _ => None
      end
  end.

Fixpoint compile_alts (E : Engine.t) (alts : list (PyDict.dict opdoc))
  : option predicate :=
  match alts with
  | [] => Some (fun _ => false)
  | alt :: rest =>
      match compile_alt E alt, compile_alts E rest with
      | Some p, Some ps => Some (fun d => (p d || ps d)%bool)
      | _, _ => None
      end
  end.

Definition compile_clause (E : Engine.t) (key : string) (qv : qvalue)
  : option predicate :=
  match qv with
  | QList alts =>
      if String.eqb key "$or" then
        match alts with
        | [] => None
        | _ :: _ => compile_alts E alts
        end
      else None
  | QScalar lit =>
      if String.eqb key "$or" then None
      else Some (fun d => equals lit (Raw.lookup key d))
  | QOps o =>
      if String.eqb key "$or" then None
      else option_map (fun m d => m (Raw.lookup key d)) (compile_ops E o)
  end.

(** A filter is the conjunction of its entries; [None] when the store
    refuses it. *)
Fixpoint compile (E : Engine.t) (f : filter) : option predicate :=
  match f with
  | [] => Some (fun _ => true)
  | (key, qv) :: rest =>
      match compile_clause E key qv, compile E rest with
      | Some p, Some ps => Some (fun d => (p d && ps d)%bool)
      | _, _ => None
      end
  end.

(** [f] selects [d]: [None] when the store refuses [f]. *)
Definition matches (E : Engine.t) (f : filter) (d : Raw.document) : option bool :=
  option_map (fun p => p d) (compile E f).

(** The filters made of the operators modelled above: equality on a field,
    [$gte] and [$lte] with a number, [$regex] with [$options], and [$or]. *)
Definition field_key (key : string) : bool :=
  match key with
  | String "$" _ => false
  | _ => true
  end.

Definition covered_op (entry : string * scalar) : bool :=
  let (op, arg) := entry in
  if (String.eqb op "$gte" || String.eqb op "$lte")%bool then
    match arg with
    | SStr _ => false
    | SInt _ | SFloat _ => true
    end
  else (String.eqb op "$regex" || String.eqb op "$options")%bool.

Definition covered_ops (o : opdoc) : bool :=
  match o with
  | [] => false
  | _ :: _ => forallb covered_op o
  end.

Definition covered_alt (alt : PyDict.dict opdoc) : bool :=
  forallb (fun entry => (field_key (fst entry) && covered_ops (snd entry))%bool)
          alt.

Definition covered_clause (entry : string * qvalue) : bool :=
  let (key, qv) := entry in
  match qv with
  | QScalar _ => (field_key key || String.eqb key "$or")%bool
  | QOps o => ((field_key key && covered_ops o) || String.eqb key "$or")%bool
  | QList alts => (String.eqb key "$or" && forallb covered_alt alts)%bool
  end.

Definition covered (f : filter) : bool := forallb covered_clause f.

(** The driver encodes an integer in eight bytes at most. *)
Definition int64 (z : Z) : bool := ((- (2 ^ 63) <=? z) && (z <? 2 ^ 63))%bool.

Definition encodable_scalar (v : scalar) : bool :=
  match v with
  | SInt z => int64 z
  | SStr _ | SFloat _ => true
  end.

Definition encodable_ops (o : opdoc) : bool :=
  forallb (fun entry => encodable_scalar (snd entry)) o.

Definition encodable_value (qv : qvalue) : bool :=
  match qv with
  | QScalar v => encodable_scalar v
  | QOps o => encodable_ops o
  | QList alts =>
      forallb (forallb (fun entry => encodable_ops (snd entry))) alts
  end.

Definition encodable (f : filter) : bool :=
  forallb (fun entry => encodable_value (snd entry)) f.

(** A database: the engine of its regular expressions, and for each
    collection name its documents in natural order. *)
Record database : Type := {
  engine : Engine.t;
  collection : string -> list Raw.document
}.

(** [cursor.limit(n)]: zero means no limit, a negative number counts as
    its absolute value. *)
Definition limit (n : Z) (docs : list Raw.document) : list Raw.document :=
  if n =? 0 then docs else firstn (Z.to_nat (Z.abs n)) docs.

(** The requests the store received. *)
Inductive call : Type :=
| Find (name : string) (f : filter) (n : Z).

(** [db[name].find(f).limit(n)], iterated to the end: the documents, and
    the request the store received.  The driver raises before it sends
    anything when it cannot encode the filter or the limit. *)
Definition find (db : database) (name : string) (f : filter) (n : Z)
  : outcome (list Raw.document) * list call :=
  if negb (encodable f && int64 (Z.abs n)) then (Raise OverflowError, [])
  else if negb (covered f) then (Unmodelled, [Find name f n])
  else
    match compile (engine db) f with
    | Some p => (Ok (limit n (List.filter p (collection db name))), [Find name f n])
    | None => (Raise OperationFailure, [Find name f n])
    end.

End Store.

(** ** The route [GET /properties] *)

(** The arguments of [list_properties] once the query string is bound. *)
Module Params.

Record t : Type := {
  q : option string;
  min_price : option Z;
  max_price : option Z;
  bedrooms : option Z;
  bathrooms : option float;
  city : option string;
  state : option string;
  property_type : option string;
  status : string;
  limit : Z
}.

End Params.

(** The query string as the client sent it: every parameter may be left
    out.  The lexical reading of numbers is the framework's and is taken as
    done. *)
Module Request.

Record t : Type := {
  q : option string;
  min_price : option Z;
  max_price : option Z;
  bedrooms : option Z;
  bathrooms : option float;
  city : option string;
  state : option string;
  property_type : option string;
  status : option string;
  limit : option Z
}.

End Request.

(** [Query(None, ge=0)] on an [Optional[int]]. *)
Definition check_ge (name : string) (bound : Z) (o : option Z) : list string :=
  match o with
  | Some v => if bound <=? v then [] else [name]
  | None => []
  end.

(** [Query(None, ge=0)] on an [Optional[float]]. *)
Definition check_ge_float (name : string) (bound : float) (o : option float)
  : list string :=
  match o with
  | Some v => if float_le bound v then [] else [name]
  | None => []
  end.

Definition check_le (name : string) (bound : Z) (o : option Z) : list string :=
  match o with
  | Some v => if v <=? bound then [] else [name]
  | None => []
  end.

Definition default {A : Type} (o : option A) (d : A) : A :=
  match o with
  | Some a => a
  | None => d
  end.

(** The binding declared by the signature of [list_properties]: defaults
    for [status] and [limit], and the bounds of the numeric parameters.  A
    request that breaks a bound is refused and the route is not entered. *)
Definition bind (r : Request.t) : outcome Params.t :=
  let limit := default (Request.limit r) 50 in
  match (check_ge "min_price" 0 (Request.min_price r)
         ++ check_ge "max_price" 0 (Request.max_price r)
         ++ check_ge "bedrooms" 0 (Request.bedrooms r)
         ++ check_ge_float "bathrooms" float_zero (Request.bathrooms r)
         ++ check_ge "limit" 1 (Some limit)
         ++ check_le "limit" 200 (Some limit))%list
  with
  | [] =>
      Ok {| Params.q := Request.q r;
            Params.min_price := Request.min_price r;
            Params.max_price := Request.max_price r;
            Params.bedrooms := Request.bedrooms r;
            Params.bathrooms := Request.bathrooms r;
            Params.city := Request.city r;
            Params.state := Request.state r;
            Params.property_type := Request.property_type r;
            Params.status := default (Request.status r) "sale";
            Params.limit := limit |}
  | bad => Raise (RequestValidationError bad)
  end.

(** [{"$regex": pattern, "$options": "i"}] *)
Definition regex_i (pattern : string) : opdoc :=
  [("$regex", SStr pattern); ("$options", SStr "i")].

(** [f"^{text}$"] *)
Definition anchored (text : string) : string := ("^" ++ text ++ "$")%string.

Definition is_some {A : Type} (o : option A) : bool :=
  match o with
  | Some _ => true
  | None => false
  end.

(** Lines 66 to 97 of [list_properties]: the filter document.  In a branch
    guarded by [truthy x], [default x EmptyString] is the value of [x]. *)
Definition filter_query (a : Params.t) : filter :=
  let filter_query := [("status", QScalar (SStr (Params.status a)))] in
  let filter_query :=
    if truthy (Params.q a) then
      let q := default (Params.q a) EmptyString in
      PyDict.set filter_query "$or"
        (QList [ [("title", regex_i q)];
                 [("city", regex_i q)];
                 [("state", regex_i q)];
                 [("address", regex_i q)] ])
    else filter_query in
  let filter_query :=
    if (is_some (Params.min_price a) || is_some (Params.max_price a))%bool then
      let price_filter := PyDict.empty in
      let price_filter :=
        match Params.min_price a with
        | Some v => PyDict.set price_filter "$gte" (SInt v)
        | None => price_filter
        end in
      let price_filter :=
        match Params.max_price a with
        | Some v => PyDict.set price_filter "$lte" (SInt v)
        | None => price_filter
        end in
      PyDict.set filter_query "price" (QOps price_filter)
    else filter_query in
  let filter_query :=
    match Params.bedrooms a with
    | Some v => PyDict.set filter_query "bedrooms" (QOps [("$gte", SInt v)])
    | None => filter_query
    end in
  let filter_query :=
    match Params.bathrooms a with
    | Some v => PyDict.set filter_query "bathrooms" (QOps [("$gte", SFloat v)])
    | None => filter_query
    end in
  let filter_query :=
    if truthy (Params.city a) then
      PyDict.set filter_query "city"
        (QOps (regex_i (anchored (default (Params.city a) EmptyString))))
    else filter_query in
  let filter_query :=
    if truthy (Params.state a) then
      PyDict.set filter_query "state"
        (QOps (regex_i (anchored (default (Params.state a) EmptyString))))
    else filter_query in
  let filter_query :=
    if truthy (Params.property_type a) then
      PyDict.set filter_query "property_type"
        (QOps (regex_i (anchored (default (Params.property_type a) EmptyString))))
    else filter_query in
  filter_query.

(** [str(d.get("_id"))] *)
Definition str_of_id (o : option string) : string :=
  match o with
  | Some hex => hex
  | None => "None"
  end.

(** Lines 104 to 125: the model built from one raw record. *)
Definition response_of (d : Raw.document) : outcome PropertyResponse.t :=
  PropertyResponse.new
    (str_of_id (get (Raw._id d)))
    (get (Raw.title d))
    (get (Raw.status d))
    (get (Raw.price d))
    (get_default (Raw.currency d) "USD")
    (get (Raw.address d))
    (get (Raw.city d))
    (get (Raw.state d))
    (get_default (Raw.country d) "USA")
    (get_default (Raw.bedrooms d) 0)
    (get_default (Raw.bathrooms d) float_zero)
    (get_default (Raw.property_type d) "house")
    (get (Raw.area_sqft d))
    (get (Raw.lot_size_sqft d))
    (get (Raw.year_built d))
    (get (Raw.parking_spaces d))
    (get (Raw.hoa_fee d))
    (get (Raw.description d))
    (get_default (Raw.images d) [])
    (get_default (Raw.features d) []).

(** The loop of lines 101 to 126: [results] grows by one model per
    document; an exception leaves the loop and the route. *)
Fixpoint collect (docs : list Raw.document) (results : list PropertyResponse.t)
  : outcome (list PropertyResponse.t) :=
  match docs with
  | [] => Ok results
  | d :: rest =>
      match response_of d with
      | Ok r => collect rest (results ++ [r])
      | Raise e => Raise e
      | Unmodelled => Unmodelled
      end
  end.

(** [list_properties]: the outcome, and the requests sent to the store.
    [db] is [None] when the store handle was never initialised. *)
Definition list_properties (db : option Store.database) (a : Params.t)
  : outcome (list PropertyResponse.t) * list Store.call :=
  match db with
  | None => (Raise (HTTPException 500 "Database not available"), [])
  | Some store =>
      match Store.find store "property" (filter_query a) (Params.limit a) with
      | (Ok docs, calls) => (collect docs [], calls)
      | (Raise e, calls) => (Raise e, calls)
      | (Unmodelled, calls) => (Unmodelled, calls)
      end
  end.

(** The route as the client reaches it: binding, then [list_properties]. *)
Definition get_properties (db : option Store.database) (r : Request.t)
  : outcome (list PropertyResponse.t) * list Store.call :=
  match bind r with
  | Ok a => list_properties db a
  | Raise e => (Raise e, [])
  | Unmodelled => (Unmodelled, [])
  end.

(** ** The diagnostic route [GET /test] *)

(** What [test_database] uses of the store handle: its [name] attribute,
    when it has one, and [list_collection_names()], which returns the names
    or raises an exception with a message. *)
Inductive listing_answer : Type :=
| Collections (names : list string)
| Exception (message : string).

Module Handle.

Record t : Type := {
  name : option string;
  list_collection_names : listing_answer
}.

End Handle.

(** The values of the response dictionary. *)
Inductive json : Type :=
| JNone
| JStr (s : string)
| JList (l : list string).

(** [text[:n]]: the first [n] characters. *)
Definition first (n : nat) (text : string) : string :=
  String.concat EmptyString (firstn n (Utf8.groups text)).

(** [os.getenv] *)
Definition environ : Type := string -> option string.

(** [test_database], lines 138 to 172.  Nothing in the outer [try] raises
    besides [list_collection_names()], which has its own handler, so the
    outer handler is never entered. *)
Definition test_database (db : option Handle.t) (getenv : environ)
  : PyDict.dict json :=
  let response :=
    [("backend", JStr "✅ Running");
     ("database", JStr "❌ Not Available");
     ("database_url", JNone);
     ("database_name", JNone);
     ("connection_status", JStr "Not Connected");
     ("collections", JList [])] in
  let response :=
    match db with
    | Some handle =>
        let response := PyDict.set response "database" (JStr "✅ Available") in
        let response :=
          PyDict.set response "database_url" (JStr "✅ Configured") in
        let response :=
          PyDict.set response "database_name"
            (JStr (match Handle.name handle with
                   | Some n => n
                   | None => "✅ Connected"
                   end)) in
        let response :=
          PyDict.set response "connection_status" (JStr "Connected") in
        match Handle.list_collection_names handle with
        | Collections names =>
            let response :=
              PyDict.set response "collections" (JList (firstn 10 names)) in
            PyDict.set response "database" (JStr "✅ Connected & Working")
        | Exception message =>
            PyDict.set response "database"
              (JStr ("⚠️  Connected but Error: " ++ first 50 message)%string)
        end
    | None =>
        PyDict.set response "database"
          (JStr "⚠️  Available but not initialized")
    end in
  let response :=
    PyDict.set response "database_url"
      (JStr (if truthy (getenv "DATABASE_URL") then "✅ Set" else "❌ Not Set")) in
  let response :=
    PyDict.set response "database_name"
      (JStr (if truthy (getenv "DATABASE_NAME") then "✅ Set" else "❌ Not Set")) in
  response.

(** ** Auxiliary definitions for the statements *)

(** The atoms of plain characters. *)
Definition lits (l : list N) : list Regex.atom := map Regex.Lit l.

Definition is_empty (l : list N) : bool :=
  match l with
  | [] => true
  | _ :: _ => false
  end.

(** Characters and texts up to letter case, as the engine folds it. *)
Definition folded (E : Engine.t) (l : list N) : list N :=
  map (Engine.canon E) l.

Definition casefold (E : Engine.t) (s : string) : list N :=
  folded E (Utf8.decode s).

(** Two texts are equal up to letter case. *)
Definition equal_ci (E : Engine.t) (a b : string) : Prop :=
  casefold E a = casefold E b.

(** [q] occurs in [s] as a substring, up to letter case. *)
Definition occurs_ci (E : Engine.t) (q s : string) : Prop :=
  exists pre mid post,
    Utf8.decode s = pre ++ mid ++ post /\ folded E mid = casefold E q.

(** A stored string field holds a text in which [q] occurs, up to case. *)
Definition field_occurs (E : Engine.t) (q : string) (f : field string) : Prop :=
  exists s, f = Stored s /\ occurs_ci E q s.

(** A stored string field equals [text] up to case, a final newline of the
    stored text being ignored. *)
Definition field_equal_ci (E : Engine.t) (text : string) (f : field string)
  : Prop :=
  exists s, f = Stored s
            /\ (equal_ci E s text
                \/ exists s', Utf8.decode s = s' ++ [Regex.newline]
                              /\ folded E s' = casefold E text).

(** The filter document, one criterion at a time: each criterion that is
    present contributes its own entry, in the order of the source. *)
Definition status_clause (a : Params.t) : filter :=
  [("status", QScalar (SStr (Params.status a)))].

Definition q_clause (a : Params.t) : filter :=
  match Params.q a with
  | Some (String c q' as q) =>
      [("$or", QList [ [("title", regex_i q)];
                       [("city", regex_i q)];
                       [("state", regex_i q)];
                       [("address", regex_i q)] ])]
  | _ => []
  end.

Definition price_clause (a : Params.t) : filter :=
  match Params.min_price a, Params.max_price a with
  | Some lo, Some hi => [("price", QOps [("$gte", SInt lo); ("$lte", SInt hi)])]
  | Some lo, None => [("price", QOps [("$gte", SInt lo)])]
  | None, Some hi => [("price", QOps [("$lte", SInt hi)])]
  | None, None => []
  end.

Definition bedrooms_clause (a : Params.t) : filter :=
  match Params.bedrooms a with
  | Some v => [("bedrooms", QOps [("$gte", SInt v)])]
  | None => []
  end.

Definition bathrooms_clause (a : Params.t) : filter :=
  match Params.bathrooms a with
  | Some v => [("bathrooms", QOps [("$gte", SFloat v)])]
  | None => []
  end.

Definition exact_clause (key : string) (text : option string) : filter :=
  match text with
  | Some (String c t' as t) => [(key, QOps (regex_i (anchored t)))]
  | _ => []
  end.

Definition clauses (a : Params.t) : filter :=
  (status_clause a ++ q_clause a ++ price_clause a ++ bedrooms_clause a
   ++ bathrooms_clause a ++ exact_clause "city" (Params.city a)
   ++ exact_clause "state" (Params.state a)
   ++ exact_clause "property_type" (Params.property_type a))%list.

(** [q] occurs, up to case, in the title, the city, the state or the
    address of the record. *)
Definition text_occurs (E : Engine.t) (q : string) (d : Raw.document) : Prop :=
  field_occurs E q (Raw.title d) \/ field_occurs E q (Raw.city d)
  \/ field_occurs E q (Raw.state d) \/ field_occurs E q (Raw.address d).

(** A stored integer field holds a number that [P] accepts. *)
Definition field_int (P : Z -> Prop) (f : field Z) : Prop :=
  exists v, f = Stored v /\ P v.

(** The key is stored with a value. *)
Definition present {A : Type} (f : field A) : bool :=
  match f with
  | Stored _ => true
  | Missing | Null => false
  end.

(** The key is missing or stored with a value. *)
Definition not_null {A : Type} (f : field A) : bool :=
  match f with
  | Null => false
  | Missing | Stored _ => true
  end.

(** A record from which a response can be built: the five fields without
    a default are stored, and no field with a default is a stored null. *)
Definition complete (d : Raw.document) : bool :=
  (present (Raw.title d) && present (Raw.status d) && present (Raw.price d)
   && present (Raw.address d) && present (Raw.city d)
   && not_null (Raw.currency d) && not_null (Raw.country d)
   && not_null (Raw.bedrooms d) && not_null (Raw.bathrooms d)
   && not_null (Raw.property_type d) && not_null (Raw.images d)
   && not_null (Raw.features d))%bool.





(** [f] selects [d]. *)
Definition selects (E : Engine.t) (f : filter) (d : Raw.document) : Prop :=
  Store.matches E f d = Some true.

(** Conjunction of two answers of the store, strict in both. *)
Definition and_opt (x y : option bool) : option bool :=
  match x, y with
  | Some a, Some b => Some (a && b)%bool
  | _, _ => None
  end.

(** The same criteria with the free text left out. *)
Definition without_q (a : Params.t) : Params.t :=
  {| Params.q := None;
     Params.min_price := Params.min_price a;
     Params.max_price := Params.max_price a;
     Params.bedrooms := Params.bedrooms a;
     Params.bathrooms := Params.bathrooms a;
     Params.city := Params.city a;
     Params.state := Params.state a;
     Params.property_type := Params.property_type a;
     Params.status := Params.status a;
     Params.limit := Params.limit a |}.

(** The three criteria that are matched exactly. *)
Inductive exact_field : Type := City | State | PropertyType.

Definition criterion (k : exact_field) (a : Params.t) : option string :=
  match k with
  | City => Params.city a
  | State => Params.state a
  | PropertyType => Params.property_type a
  end.

Definition stored (k : exact_field) (d : Raw.document) : field string :=
  match k with
  | City => Raw.city d
  | State => Raw.state d
  | PropertyType => Raw.property_type d
  end.

(** The same criteria with one exact criterion left out. *)
Definition without (k : exact_field) (a : Params.t) : Params.t :=
  {| Params.q := Params.q a;
     Params.min_price := Params.min_price a;
     Params.max_price := Params.max_price a;
     Params.bedrooms := Params.bedrooms a;
     Params.bathrooms := Params.bathrooms a;
     Params.city := match k with City => None | _ => Params.city a end;
     Params.state := match k with State => None | _ => Params.state a end;
     Params.property_type :=
       match k with PropertyType => None | _ => Params.property_type a end;
     Params.status := Params.status a;
     Params.limit := Params.limit a |}.

(** An empty text read as an absent one. *)
Definition blank_as_absent (o : option string) : option string :=
  match o with
  | Some EmptyString => None
  | _ => o
  end.

Definition blanks_as_absent (a : Params.t) : Params.t :=
  {| Params.q := blank_as_absent (Params.q a);
     Params.min_price := Params.min_price a;
     Params.max_price := Params.max_price a;
     Params.bedrooms := Params.bedrooms a;
     Params.bathrooms := Params.bathrooms a;
     Params.city := blank_as_absent (Params.city a);
     Params.state := blank_as_absent (Params.state a);
     Params.property_type := blank_as_absent (Params.property_type a);
     Params.status := Params.status a;
     Params.limit := Params.limit a |}.

(** Every criterion but the status is absent. *)
Definition only_status (a : Params.t) : Prop :=
  Params.q a = None /\ Params.min_price a = None /\ Params.max_price a = None
  /\ Params.bedrooms a = None /\ Params.bathrooms a = None
  /\ Params.city a = None /\ Params.state a = None
  /\ Params.property_type a = None.

(** A request that breaks a bound declared in the signature. *)
Definition negative (o : option Z) : Prop := exists v, o = Some v /\ v < 0.

Definition out_of_bounds (r : Request.t) : Prop :=
  negative (Request.min_price r) \/ negative (Request.max_price r)
  \/ negative (Request.bedrooms r)
  \/ (exists v, Request.bathrooms r = Some v /\ float_lt v float_zero = true)
  \/ (exists n, Request.limit r = Some n /\ (n < 1 \/ 200 < n)).

(** A price inside the bounds that are present. *)
Definition in_range (a : Params.t) (price : Z) : Prop :=
  (forall lo, Params.min_price a = Some lo -> lo <= price)
  /\ (forall hi, Params.max_price a = Some hi -> price <= hi).

(** The text criteria that are present hold no metacharacter. *)
Definition plain_opt (o : option string) : bool :=
  match o with
  | Some s => Regex.plain s
  | None => true
  end.

Definition plain_texts (a : Params.t) : bool :=
  (plain_opt (Params.q a) && plain_opt (Params.city a)
   && plain_opt (Params.state a) && plain_opt (Params.property_type a))%bool.

(** The store interprets the filter. *)
Definition interpreted (E : Engine.t) (f : filter) : Prop :=
  exists p, Store.compile E f = Some p.

(** The engine accepts the pattern of a text criterion that is present. *)
Definition pattern_accepted (E : Engine.t) (wrap : string -> string)
           (text : option string) : Prop :=
  match text with
  | Some (String c t' as t) => Regex.compile E (wrap t) "i" <> None
  | _ => True
  end.

(** The engine accepts the patterns of all the text criteria. *)
Definition patterns_accepted (E : Engine.t) (a : Params.t) : Prop :=
  pattern_accepted E (fun t => t) (Params.q a)
  /\ pattern_accepted E anchored (Params.city a)
  /\ pattern_accepted E anchored (Params.state a)
  /\ pattern_accepted E anchored (Params.property_type a).

(** The driver can encode the integers of the criteria. *)
Definition int64_opt (o : option Z) : bool :=
  match o with
  | Some z => Store.int64 z
  | None => true
  end.

Definition integers_encodable (a : Params.t) : bool :=
  (int64_opt (Params.min_price a) && int64_opt (Params.max_price a)
   && int64_opt (Params.bedrooms a) && Store.int64 (Z.abs (Params.limit a)))%bool.

(** The identifier a response shows for a record. *)
Definition doc_id (d : Raw.document) : string := str_of_id (get (Raw._id d)).

(** The same criteria with another free text. *)
Definition with_q (q : option string) (a : Params.t) : Params.t :=
  {| Params.q := q;
     Params.min_price := Params.min_price a;
     Params.max_price := Params.max_price a;
     Params.bedrooms := Params.bedrooms a;
     Params.bathrooms := Params.bathrooms a;
     Params.city := Params.city a;
     Params.state := Params.state a;
     Params.property_type := Params.property_type a;
     Params.status := Params.status a;
     Params.limit := Params.limit a |}.

(** A request inside every bound of the signature. *)
Definition accepted (r : Request.t) : Prop :=
  (forall v, Request.min_price r = Some v -> 0 <= v)
  /\ (forall v, Request.max_price r = Some v -> 0 <= v)
  /\ (forall v, Request.bedrooms r = Some v -> 0 <= v)
  /\ (forall v, Request.bathrooms r = Some v -> float_le float_zero v = true)
  /\ 1 <= default (Request.limit r) 50 <= 200.

(** The arguments an accepted request gives the route. *)
Definition forwarded (r : Request.t) : Params.t :=
  {| Params.q := Request.q r;
     Params.min_price := Request.min_price r;
     Params.max_price := Request.max_price r;
     Params.bedrooms := Request.bedrooms r;
     Params.bathrooms := Request.bathrooms r;
     Params.city := Request.city r;
     Params.state := Request.state r;
     Params.property_type := Request.property_type r;
     Params.status := default (Request.status r) "sale";
     Params.limit := default (Request.limit r) 50 |}.

(** The environment flag [test_database] reports for a variable. *)
Definition env_flag (getenv : environ) (variable : string) : json :=
  JStr (if truthy (getenv variable) then "✅ Set" else "❌ Not Set").

(** The collection names a handle can list: none when it raises. *)
Definition listed (db : option Handle.t) : list string :=
  match db with
  | Some handle =>
      match Handle.list_collection_names handle with
      | Collections names => names
      | Exception _ => []
      end
  | None => []
  end.

(** The error of lines 63 and 64. *)
Definition unavailable : error := HTTPException 500 "Database not available".

(** ** Sample data *)

Definition blank : Raw.document :=
  {| Raw._id := Missing; Raw.title := Missing; Raw.status := Missing;
     Raw.price := Missing; Raw.currency := Missing; Raw.address := Missing;
     Raw.city := Missing; Raw.state := Missing; Raw.country := Missing;
     Raw.bedrooms := Missing; Raw.bathrooms := Missing;
     Raw.property_type := Missing; Raw.area_sqft := Missing;
     Raw.lot_size_sqft := Missing; Raw.year_built := Missing;
     Raw.parking_spaces := Missing; Raw.hoa_fee := Missing;
     Raw.description := Missing; Raw.images := Missing;
     Raw.features := Missing |}.

(** A record for sale that stores its five fields without a default and
    nothing else. *)
Definition listing (oid title city : string) (price : Z) : Raw.document :=
  {| Raw._id := Stored oid; Raw.title := Stored title;
     Raw.status := Stored "sale"; Raw.price := Stored price;
     Raw.currency := Missing; Raw.address := Stored "12 Oak Lane";
     Raw.city := Stored city; Raw.state := Missing; Raw.country := Missing;
     Raw.bedrooms := Missing; Raw.bathrooms := Missing;
     Raw.property_type := Missing; Raw.area_sqft := Missing;
     Raw.lot_size_sqft := Missing; Raw.year_built := Missing;
     Raw.parking_spaces := Missing; Raw.hoa_fee := Missing;
     Raw.description := Missing; Raw.images := Missing;
     Raw.features := Missing |}.

(** The same record as a legacy one that lost its title. *)
Definition untitled (oid city : string) (price : Z) : Raw.document :=
  {| Raw._id := Stored oid; Raw.title := Missing;
     Raw.status := Stored "sale"; Raw.price := Stored price;
     Raw.currency := Missing; Raw.address := Stored "12 Oak Lane";
     Raw.city := Stored city; Raw.state := Missing; Raw.country := Missing;
     Raw.bedrooms := Missing; Raw.bathrooms := Missing;
     Raw.property_type := Missing; Raw.area_sqft := Missing;
     Raw.lot_size_sqft := Missing; Raw.year_built := Missing;
     Raw.parking_spaces := Missing; Raw.hoa_fee := Missing;
     Raw.description := Missing; Raw.images := Missing;
     Raw.features := Missing |}.

(** Criteria for sale with a free text, price bounds and a city. *)
Definition criteria (q : option string) (lo hi : option Z)
           (city : option string) (limit : Z) : Params.t :=
  {| Params.q := q; Params.min_price := lo; Params.max_price := hi;
     Params.bedrooms := None; Params.bathrooms := None;
     Params.city := city; Params.state := None;
     Params.property_type := None; Params.status := "sale";
     Params.limit := limit |}.

(** A request with price bounds, a bedrooms minimum and a cap. *)
Definition request (lo hi beds : option Z) (limit : option Z) : Request.t :=
  {| Request.q := None; Request.min_price := lo; Request.max_price := hi;
     Request.bedrooms := beds; Request.bathrooms := None;
     Request.city := None; Request.state := None;
     Request.property_type := None; Request.status := None;
     Request.limit := limit |}.

(** Criteria with an empty free text and minimums of zero. *)
Definition zero_minimums : Params.t :=
  {| Params.q := Some EmptyString; Params.min_price := None;
     Params.max_price := None;
     Params.bedrooms := Some 0; Params.bathrooms := Some float_zero;
     Params.city := Some EmptyString; Params.state := None;
     Params.property_type := None; Params.status := "sale";
     Params.limit := 50 |}.

(** The doubles 1.5 and 2.0. *)
Definition one_and_a_half : float := S754_finite false 6755399441055744 (-52).
Definition two : float := S754_finite false 4503599627370496 (-51).

(** A complete record that also stores its rooms. *)
Definition home (oid : string) (beds : Z) (baths : float) : Raw.document :=
  {| Raw._id := Stored oid; Raw.title := Stored "Home";
     Raw.status := Stored "sale"; Raw.price := Stored 100;
     Raw.currency := Stored "EUR"; Raw.address := Stored "12 Oak Lane";
     Raw.city := Stored "Austin"; Raw.state := Null; Raw.country := Missing;
     Raw.bedrooms := Stored beds; Raw.bathrooms := Stored baths;
     Raw.property_type := Missing; Raw.area_sqft := Stored 900;
     Raw.lot_size_sqft := Missing; Raw.year_built := Missing;
     Raw.parking_spaces := Missing; Raw.hoa_fee := Missing;
     Raw.description := Missing; Raw.images := Stored ["u1"];
     Raw.features := Missing |}.

Definition homes_docs : list Raw.document :=
  [ home "h1" 1 one_and_a_half; home "h2" 3 two; home "h3" 4 float_zero ].

(** Criteria for sale with minimums on the rooms. *)
Definition rooms (beds : option Z) (baths : option float) : Params.t :=
  {| Params.q := None; Params.min_price := None; Params.max_price := None;
     Params.bedrooms := beds; Params.bathrooms := baths;
     Params.city := None; Params.state := None;
     Params.property_type := None; Params.status := "sale";
     Params.limit := 50 |}.

(** A sample table: the capital letters of Latin-1 in lower case. *)
Definition latin1 (c : N) : N :=
  if ((192 <=? c)%N && (c <=? 222)%N && negb (c =? 215)%N)%bool
  then (c + 32)%N else c.

(** A sample engine: it folds the letters of Latin-1, and of the patterns
    outside the fragment it knows [Loft|Barn] alone. *)
Definition sample : Engine.t :=
  {| Engine.fold := latin1;
     Engine.beyond :=
       fun pattern options =>
         if (String.eqb pattern "Loft|Barn" && String.eqb options "i")%bool
         then Some (fun subject =>
                      (Regex.search_from (fun c => latin1 (lower c)) true
                         (lits (Utf8.decode "Loft")) true (Utf8.decode subject)
                       || Regex.search_from (fun c => latin1 (lower c)) true
                            (lits (Utf8.decode "Barn")) true
                            (Utf8.decode subject))%bool)
         else None |}.

(** A store with one collection, [property]. *)
Definition store_of (docs : list Raw.document) : Store.database :=
  {| Store.engine := sample;
     Store.collection :=
       fun name => if String.eqb name "property" then docs else [] |}.

(** Five records for sale, in insertion order. *)
Definition five : Store.database :=
  store_of [ listing "a1" "Loft" "Austin" 100;
             listing "a2" "Cabin" "Dallas" 200;
             listing "a3" "Villa" "Austin" 300;
             listing "a4" "Barn" "Waco" 400;
             listing "a5" "Flat" "Austin" 500 ].


(** A complete record followed by one without a title. *)
Definition mixed : Store.database :=
  store_of [listing "a1" "Loft" "Austin" 100; untitled "b1" "Austin" 100].

(** Three records that store their rooms. *)
Definition homes : Store.database := store_of homes_docs.

(** * Properties *)

(** ** Text and its characters *)

Section TextFacts.

Lemma single_not_continuation (c : ascii) :
  Utf8.single c = true -> Utf8.continuation c = false.
Proof.
  unfold Utf8.single, Utf8.continuation. intros H.
  apply N.ltb_lt in H.
  destruct (N.leb_spec 128 (Utf8.byte c)) as [H'|H']; [lia | reflexivity].
Qed.

Lemma groups_cons_single (c : ascii) (s : string) :
  Utf8.single c = true ->
  Utf8.groups (String c s) = String c EmptyString :: Utf8.groups s.
Proof.
  intros H. destruct s as [|c' s]; [reflexivity|].
  change (Utf8.groups (String c (String c' s)))
    with (if (negb (Utf8.single c) && Utf8.continuation c')%bool
          then match Utf8.groups (String c' s) with
               | g :: gs => String c g :: gs
               | [] => [String c EmptyString]
               end
          else String c EmptyString :: Utf8.groups (String c' s)).
  now rewrite H.
Qed.

Lemma groups_nonempty (c : ascii) (s : string) : Utf8.groups (String c s) <> [].
Proof.
  destruct s as [|c' s]; [discriminate|].
  change (Utf8.groups (String c (String c' s)))
    with (if (negb (Utf8.single c) && Utf8.continuation c')%bool
          then match Utf8.groups (String c' s) with
               | g :: gs => String c g :: gs
               | [] => [String c EmptyString]
               end
          else String c EmptyString :: Utf8.groups (String c' s)).
  destruct (negb (Utf8.single c) && Utf8.continuation c')%bool;
    [destruct (Utf8.groups (String c' s))|]; discriminate.
Qed.

(** A character below 128 at the end of a text is a group of its own. *)
Lemma groups_snoc_single (s : string) (c : ascii) :
  Utf8.single c = true ->
  Utf8.groups (s ++ String c EmptyString)%string
  = Utf8.groups s ++ [String c EmptyString].
Proof.
  intros H. induction s as [|b s IH]; [reflexivity|].
  destruct s as [|b' s].
  - change (String b EmptyString ++ String c EmptyString)%string
      with (String b (String c EmptyString)).
    change (Utf8.groups (String b (String c EmptyString)))
      with (if (negb (Utf8.single b) && Utf8.continuation c)%bool
            then match Utf8.groups (String c EmptyString) with
                 | g :: gs => String b g :: gs
                 | [] => [String b EmptyString]
                 end
            else String b EmptyString :: Utf8.groups (String c EmptyString)).
    rewrite (single_not_continuation c H), andb_false_r. reflexivity.
  - change (String b (String b' s) ++ String c EmptyString)%string
      with (String b (String b' s ++ String c EmptyString)%string) in *.
    change (Utf8.groups (String b (String b' s ++ String c EmptyString)%string))
      with (if (negb (Utf8.single b) && Utf8.continuation b')%bool
            then match Utf8.groups (String b' s ++ String c EmptyString)%string with
                 | g :: gs => String b g :: gs
                 | [] => [String b EmptyString]
                 end
            else String b EmptyString
                 :: Utf8.groups (String b' s ++ String c EmptyString)%string).
    change (Utf8.groups (String b (String b' s)))
      with (if (negb (Utf8.single b) && Utf8.continuation b')%bool
            then match Utf8.groups (String b' s) with
                 | g :: gs => String b g :: gs
                 | [] => [String b EmptyString]
                 end
            else String b EmptyString :: Utf8.groups (String b' s)).
    rewrite IH.
    destruct (negb (Utf8.single b) && Utf8.continuation b')%bool;
      [|reflexivity].
    pose proof (groups_nonempty b' s) as Hne.
    destruct (Utf8.groups (String b' s)) as [|g gs]; [now elim Hne | reflexivity].
Qed.

Lemma codepoint_single (c : ascii) :
  Utf8.single c = true -> Utf8.codepoint (String c EmptyString) = Utf8.byte c.
Proof.
  unfold Utf8.single, Utf8.codepoint, Utf8.payload. simpl. intros H.
  apply N.ltb_lt in H.
  destruct (N.ltb_spec (Utf8.byte c) 192) as [_|H']; [reflexivity | lia].
Qed.

Lemma decode_cons_single (c : ascii) (s : string) :
  Utf8.single c = true ->
  Utf8.decode (String c s) = Utf8.byte c :: Utf8.decode s.
Proof.
  intros H. unfold Utf8.decode. rewrite (groups_cons_single c s H).
  change (map Utf8.codepoint (String c EmptyString :: Utf8.groups s))
    with (Utf8.codepoint (String c EmptyString)
          :: map Utf8.codepoint (Utf8.groups s)).
  now rewrite (codepoint_single c H).
Qed.

Lemma decode_snoc_single (s : string) (c : ascii) :
  Utf8.single c = true ->
  Utf8.decode (s ++ String c EmptyString)%string = Utf8.decode s ++ [Utf8.byte c].
Proof.
  intros H. unfold Utf8.decode. rewrite (groups_snoc_single s c H), map_app.
  change (map Utf8.codepoint [String c EmptyString])
    with [Utf8.codepoint (String c EmptyString)].
  now rewrite (codepoint_single c H).
Qed.

(** The characters of [f"^{text}$"]. *)
Lemma decode_anchored (t : string) :
  Utf8.decode (anchored t) = 94%N :: Utf8.decode t ++ [36%N].
Proof.
  unfold anchored.
  change ("^" ++ t ++ "$")%string with (String "^" (t ++ String "$" EmptyString)%string).
  rewrite (decode_cons_single "^" _ eq_refl).
  now rewrite (decode_snoc_single t "$" eq_refl).
Qed.

End TextFacts.

(** ** Regular expressions on plain text *)

Section RegexFacts.

Lemma parse_char_plain (c : N) :
  Regex.metachar c = false -> Regex.parse_char c = Some (Regex.Lit c).
Proof.
  intros H. unfold Regex.parse_char. rewrite H.
  unfold Regex.metachar in H. simpl in H.
  repeat (apply orb_false_elim in H; destruct H as [?H H]).
  now rewrite H1, H2, H3.
Qed.

Lemma parse_plain (l : list N) :
  forallb (fun c => negb (Regex.metachar c)) l = true ->
  Regex.parse l = Some (lits l).
Proof.
  induction l as [|c l IH]; simpl; [reflexivity|].
  intros H. apply andb_true_iff in H. destruct H as [Hc Hl].
  apply negb_true_iff in Hc.
  now rewrite (parse_char_plain c Hc), (IH Hl).
Qed.

Lemma parse_plain_dollar (l : list N) :
  forallb (fun c => negb (Regex.metachar c)) l = true ->
  Regex.parse (l ++ [36%N]) = Some (lits l ++ [Regex.Dollar]).
Proof.
  induction l as [|c l IH]; simpl; [reflexivity|].
  intros H. apply andb_true_iff in H. destruct H as [Hc Hl].
  apply negb_true_iff in Hc.
  now rewrite (parse_char_plain c Hc), (IH Hl).
Qed.

Lemma parse_anchored (t : string) :
  Regex.plain t = true ->
  Regex.parse (Utf8.decode (anchored t))
  = Some (Regex.Caret :: lits (Utf8.decode t) ++ [Regex.Dollar]).
Proof.
  intros H. rewrite decode_anchored.
  change (Regex.parse (94%N :: Utf8.decode t ++ [36%N]))
    with (match Regex.parse (Utf8.decode t ++ [36%N]) with
          | Some r => Some (Regex.Caret :: r)
          | None => None
          end).
  now rewrite (parse_plain_dollar _ H).
Qed.

Example search_substring :
  Regex.search sample "oak" "i" "12 Oak Lane" = Some true.
Proof. reflexivity. Qed.

Example search_anchored_prefix :
  Regex.search sample (anchored "Aust") "i" "Austin" = Some false.
Proof. reflexivity. Qed.

Example search_dot :
  Regex.search sample "a.c" "i" "ABC" = Some true.
Proof. reflexivity. Qed.

Example search_final_newline :
  Regex.search sample (anchored "austin") "i"
    ("Austin" ++ String (ascii_of_nat 10) EmptyString)%string
  = Some true.
Proof. reflexivity. Qed.

Example search_accent :
  Regex.search sample "é" "i" "CAFÉ" = Some true.
Proof. reflexivity. Qed.

Example search_refused :
  Regex.search sample "(" "i" "aaa" = None.
Proof. reflexivity. Qed.

Example search_beyond :
  Regex.search sample "Loft|Barn" "i" "Old barn" = Some true.
Proof. reflexivity. Qed.

(** The literal atoms of [p] consume a prefix equal to [p] up to case. *)
Lemma match_here_lits (fold : N -> N) (p : list N) (r : list Regex.atom) :
  forall (bol : bool) (s : list N),
    Regex.match_here fold true (lits p ++ r) bol s = true <->
    exists mid rest,
      s = mid ++ rest /\ map fold mid = map fold p
      /\ Regex.match_here fold true r (bol && is_empty p) rest = true.
Proof.
  induction p as [|c p IH]; intros bol s; simpl.
  - rewrite andb_true_r. split.
    + intros H. exists [], s. now repeat split.
    + intros (mid & rest & -> & Hm & H).
      destruct mid; [exact H | discriminate Hm].
  - rewrite andb_false_r. destruct s as [|x s].
    + split; [discriminate|].
      intros (mid & rest & Hs & Hm & _).
      destruct mid; [discriminate Hm | discriminate Hs].
    + unfold lits in IH. rewrite andb_true_iff, IH. simpl. split.
      * intros (Hc & mid & rest & -> & Hm & H).
        apply N.eqb_eq in Hc.
        exists (x :: mid), rest. repeat split; [|exact H].
        simpl. now rewrite Hc, Hm.
      * intros (mid & rest & Hs & Hm & H).
        destruct mid as [|y mid]; [discriminate Hm|].
        simpl in Hs. injection Hs as -> ->.
        simpl in Hm. injection Hm as Hc Hm.
        split; [apply N.eqb_eq; now symmetry|].
        exists mid, rest. now repeat split.
Qed.

(** Searching a plain text is looking for it as a substring. *)
Lemma search_from_lits (fold : N -> N) (p : list N) :
  forall (bol : bool) (s : list N),
    Regex.search_from fold true (lits p) bol s = true <->
    exists pre mid post, s = pre ++ mid ++ post /\ map fold mid = map fold p.
Proof.
  intros bol s. revert bol. induction s as [|x s IH]; intros bol.
  - simpl. rewrite orb_false_r.
    rewrite <- (app_nil_r (lits p)), match_here_lits. split.
    + intros (mid & rest & Hs & Hm & _). exists [], mid, rest. now split.
    + intros (pre & mid & post & Hs & Hm).
      destruct pre; [|discriminate Hs]. exists mid, post. now repeat split.
  - simpl. rewrite orb_true_iff, IH.
    rewrite <- (app_nil_r (lits p)), match_here_lits. split.
    + intros [(mid & rest & Hs & Hm & _) | (pre & mid & post & Hs & Hm)].
      * exists [], mid, rest. now split.
      * exists (x :: pre), mid, post. simpl. now rewrite Hs.
    + intros (pre & mid & post & Hs & Hm). destruct pre as [|y pre].
      * left. exists mid, post. now repeat split.
      * right. simpl in Hs. injection Hs as _ ->. now exists pre, mid, post.
Qed.

Lemma search_from_caret_inside (fold : N -> N) (r : list Regex.atom) (s : list N) :
  Regex.search_from fold true (Regex.Caret :: r) false s = false.
Proof.
  induction s as [|x s IH]; simpl; [reflexivity | exact IH].
Qed.

Lemma search_from_caret (fold : N -> N) (r : list Regex.atom) (s : list N) :
  Regex.search_from fold true (Regex.Caret :: r) true s
  = Regex.match_here fold true r true s.
Proof.
  destruct s as [|x s]; simpl.
  - now rewrite orb_false_r.
  - now rewrite search_from_caret_inside, orb_false_r.
Qed.

Lemma at_end_iff (s : list N) :
  Regex.at_end s = true <-> s = [] \/ s = [Regex.newline].
Proof.
  destruct s as [|c [|c' s]]; simpl.
  - split; auto.
  - rewrite N.eqb_eq. split.
    + intros ->. now right.
    + intros [H|H]; [discriminate H | now injection H].
  - split; [discriminate | intros [H|H]; discriminate H].
Qed.

(** The anchored pattern of a plain text accepts that text up to case,
    with or without one final newline. *)
Lemma search_anchored (fold : N -> N) (p s : list N) :
  Regex.search_from fold true (Regex.Caret :: lits p ++ [Regex.Dollar]) true s
  = true
  <-> map fold s = map fold p
      \/ exists s', s = s' ++ [Regex.newline] /\ map fold s' = map fold p.
Proof.
  rewrite search_from_caret, match_here_lits. simpl. split.
  - intros (mid & rest & -> & Hm & H).
    rewrite andb_true_r in H. apply at_end_iff in H. destruct H as [-> | ->].
    + left. now rewrite app_nil_r.
    + right. now exists mid.
  - intros [H | (s' & -> & H)].
    + exists s, []. repeat split; [now rewrite app_nil_r | exact H].
    + exists s', [Regex.newline]. now repeat split.
Qed.

End RegexFacts.

(** ** The store on the filter of the route *)

Section StoreFacts.

Lemma exact_clause_truthy (key : string) (text : option string) :
  exact_clause key text
  = if truthy text
    then [(key, QOps (regex_i (anchored (default text EmptyString))))]
    else [].
Proof. destruct text as [[|c t]|]; reflexivity. Qed.

Lemma q_clause_truthy (a : Params.t) :
  q_clause a
  = if truthy (Params.q a)
    then let q := default (Params.q a) EmptyString in
         [("$or", QList [ [("title", regex_i q)];
                          [("city", regex_i q)];
                          [("state", regex_i q)];
                          [("address", regex_i q)] ])]
    else [].
Proof.
  unfold q_clause. destruct (Params.q a) as [[|c t]|]; reflexivity.
Qed.

Lemma filter_query_clauses (a : Params.t) : filter_query a = clauses a.
Proof.
  destruct a as [q lo hi beds baths city state ptype status limit].
  unfold filter_query, clauses. rewrite q_clause_truthy, !exact_clause_truthy.
  unfold status_clause, price_clause, bedrooms_clause, bathrooms_clause.
  simpl.
  destruct (truthy q), lo, hi, beds, baths,
    (truthy city), (truthy state), (truthy ptype); reflexivity.
Qed.

Lemma and_opt_true (x y : option bool) :
  and_opt x y = Some true <-> x = Some true /\ y = Some true.
Proof.
  destruct x as [[|]|], y as [[|]|]; simpl;
    (split; [intros H; try discriminate H; now split
            | intros [H1 H2]; try discriminate H1; try discriminate H2;
              reflexivity]).
Qed.

Lemma matches_cons (E : Engine.t) (key : string) (qv : qvalue) (f : filter)
      (d : Raw.document) :
  Store.matches E ((key, qv) :: f) d
  = and_opt (option_map (fun p => p d) (Store.compile_clause E key qv))
            (Store.matches E f d).
Proof.
  unfold Store.matches. simpl.
  destruct (Store.compile_clause E key qv), (Store.compile E f); reflexivity.
Qed.

Lemma matches_app (E : Engine.t) (f g : filter) (d : Raw.document) :
  Store.matches E (f ++ g)%list d
  = and_opt (Store.matches E f d) (Store.matches E g d).
Proof.
  induction f as [|[key qv] f IH].
  - simpl. change (Store.matches E [] d) with (Some true).
    destruct (Store.matches E g d); reflexivity.
  - simpl. rewrite !matches_cons, IH.
    destruct (option_map _ _) as [x|], (Store.matches E f d) as [y|],
      (Store.matches E g d) as [z|]; simpl; try reflexivity.
    now rewrite andb_assoc.
Qed.

Lemma selects_app (E : Engine.t) (f g : filter) (d : Raw.document) :
  selects E (f ++ g)%list d <-> selects E f d /\ selects E g d.
Proof.
  unfold selects. rewrite matches_app. apply and_opt_true.
Qed.

Lemma selects_nil (E : Engine.t) (d : Raw.document) : selects E [] d.
Proof. reflexivity. Qed.

(** The filter of the route selects a record when each criterion does. *)
Lemma selects_filter_query (E : Engine.t) (a : Params.t) (d : Raw.document) :
  selects E (filter_query a) d <->
  selects E (status_clause a) d /\ selects E (q_clause a) d
  /\ selects E (price_clause a) d /\ selects E (bedrooms_clause a) d
  /\ selects E (bathrooms_clause a) d
  /\ selects E (exact_clause "city" (Params.city a)) d
  /\ selects E (exact_clause "state" (Params.state a)) d
  /\ selects E (exact_clause "property_type" (Params.property_type a)) d.
Proof.
  rewrite filter_query_clauses. unfold clauses.
  rewrite !selects_app. reflexivity.
Qed.

Lemma regex_on_view (f : string -> bool) (fld : field string) :
  Store.regex_on f (view VStr fld) = true <-> exists s, fld = Stored s /\ f s = true.
Proof.
  destruct fld as [| |s]; simpl; split;
    try discriminate; try (intros (s' & Hs & _); discriminate Hs).
  - intros H. now exists s.
  - intros (s' & Hs & H). now injection Hs as ->.
Qed.

(** The operator document of a caseless regular expression. *)
Lemma compile_ops_regex (E : Engine.t) (p : string) (v : option value) :
  option_map (fun m => m v) (Store.compile_ops E (regex_i p))
  = option_map (fun f => Store.regex_on f v) (Regex.compile E p "i").
Proof.
  unfold Store.compile_ops, regex_i, Store.compile_entries, Store.compile_op.
  simpl.
  destruct (Regex.compile E p "i") as [f|]; simpl; [|reflexivity].
  now rewrite !andb_true_r.
Qed.

Lemma compile_plain (E : Engine.t) (p : string) :
  Regex.plain p = true ->
  Regex.compile E p "i"
  = Some (fun subject =>
            Regex.search_from (Engine.canon E) true (lits (Utf8.decode p)) true
              (Utf8.decode subject)).
Proof.
  intros H. unfold Regex.compile. now rewrite (parse_plain _ H).
Qed.

Lemma compile_anchored (E : Engine.t) (p : string) :
  Regex.plain p = true ->
  Regex.compile E (anchored p) "i"
  = Some (fun subject =>
            Regex.search_from (Engine.canon E) true
              (Regex.Caret :: lits (Utf8.decode p) ++ [Regex.Dollar]) true
              (Utf8.decode subject)).
Proof.
  intros H. unfold Regex.compile. now rewrite (parse_anchored p H).
Qed.

(** The entry of [status]. *)
Lemma selects_status (E : Engine.t) (a : Params.t) (d : Raw.document) :
  selects E (status_clause a) d <-> Raw.status d = Stored (Params.status a).
Proof.
  unfold selects, status_clause, Store.matches. simpl.
  change (Raw.lookup "status" d) with (view VStr (Raw.status d)).
  destruct (Raw.status d) as [| |s]; simpl; split; try discriminate.
  - intros H. injection H as H. rewrite andb_true_r in H.
    apply String.eqb_eq in H. now subst.
  - intros H. injection H as ->. now rewrite String.eqb_refl.
Qed.

Lemma compile_ops_plain (E : Engine.t) (q : string) :
  Regex.plain q = true ->
  exists m, Store.compile_ops E (regex_i q) = Some m
            /\ forall fld, m (view VStr fld) = true <-> field_occurs E q fld.
Proof.
  intros Hp. pose proof (compile_ops_regex E q) as H.
  rewrite (compile_plain E q Hp) in H. simpl in H.
  destruct (Store.compile_ops E (regex_i q)) as [m|].
  - exists m. split; [reflexivity|]. intros fld.
    specialize (H (view VStr fld)). simpl in H. injection H as ->.
    rewrite regex_on_view. unfold field_occurs.
    split; intros (s & Hs & Ho); exists s; split; trivial;
      now apply (search_from_lits (Engine.canon E) (Utf8.decode q) true
                   (Utf8.decode s)).
  - discriminate (H None).
Qed.

Lemma compile_ops_anchored (E : Engine.t) (t : string) :
  Regex.plain t = true ->
  exists m, Store.compile_ops E (regex_i (anchored t)) = Some m
            /\ forall fld, m (view VStr fld) = true <-> field_equal_ci E t fld.
Proof.
  intros Hp. pose proof (compile_ops_regex E (anchored t)) as H.
  rewrite (compile_anchored E t Hp) in H. simpl in H.
  destruct (Store.compile_ops E (regex_i (anchored t))) as [m|].
  - exists m. split; [reflexivity|]. intros fld.
    specialize (H (view VStr fld)). simpl in H. injection H as ->.
    rewrite regex_on_view. unfold field_equal_ci.
    split; intros (s & Hs & Ho); exists s; split; trivial;
      now apply (search_anchored (Engine.canon E) (Utf8.decode t)
                   (Utf8.decode s)).
  - discriminate (H None).
Qed.

(** The entry of the free text [q]. *)
Lemma selects_q (E : Engine.t) (a : Params.t) (q : string) (d : Raw.document) :
  Params.q a = Some q -> q <> EmptyString -> Regex.plain q = true ->
  selects E (q_clause a) d <-> text_occurs E q d.
Proof.
  intros Hq Hne Hp. unfold q_clause. rewrite Hq.
  destruct q as [|c t]; [now elim Hne|].
  destruct (compile_ops_plain E _ Hp) as (m & Hm & Hsem).
  remember (String c t) as q' eqn:Eq'. remember (regex_i q') as o eqn:Eo.
  unfold selects, Store.matches, Store.compile, Store.compile_clause,
    Store.compile_alts, Store.compile_alt.
  simpl String.eqb. cbv iota. rewrite Hm. simpl.
  change (Raw.lookup "title" d) with (view VStr (Raw.title d)).
  change (Raw.lookup "city" d) with (view VStr (Raw.city d)).
  change (Raw.lookup "state" d) with (view VStr (Raw.state d)).
  change (Raw.lookup "address" d) with (view VStr (Raw.address d)).
  unfold text_occurs. rewrite <- !Hsem.
  rewrite !andb_true_r, orb_false_r.
  split.
  - intros H. injection H as H.
    repeat (apply orb_true_iff in H; destruct H as [H|H]); auto.
  - intros [H|[H|[H|H]]]; rewrite H; now rewrite ?orb_true_r.
Qed.

(** The entry of a criterion matched exactly. *)
Lemma selects_exact (E : Engine.t) (key : string) (text : option string)
      (t : string) (fld : field string) (d : Raw.document) :
  String.eqb key "$or" = false -> Raw.lookup key d = view VStr fld ->
  text = Some t -> t <> EmptyString -> Regex.plain t = true ->
  selects E (exact_clause key text) d <-> field_equal_ci E t fld.
Proof.
  intros Hkey Hlook -> Hne Hp. unfold exact_clause.
  destruct t as [|c t]; [now elim Hne|].
  destruct (compile_ops_anchored E _ Hp) as (m & Hm & Hsem).
  unfold selects, Store.matches, Store.compile, Store.compile_clause.
  rewrite Hkey, Hm. simpl. rewrite Hlook, andb_true_r, <- Hsem.
  split; [intros H; now injection H | intros ->; reflexivity].
Qed.

Lemma cmp_ge_int (lo : Z) (fld : field Z) :
  Store.cmp_bound Store.is_ge (Store.NInt lo) (view VInt fld) = true
  <-> field_int (fun v => lo <= v) fld.
Proof.
  unfold field_int. destruct fld as [| |v]; simpl.
  - split; [discriminate | intros (v & H & _); discriminate H].
  - split; [discriminate | intros (v & H & _); discriminate H].
  - destruct (Z.compare_spec v lo); simpl; split; intros H';
      try discriminate H'; try reflexivity;
      try (exists v; split; [reflexivity | lia]);
      destruct H' as (v' & Hv & Hle); injection Hv as <-; lia.
Qed.

Lemma cmp_le_int (hi : Z) (fld : field Z) :
  Store.cmp_bound Store.is_le (Store.NInt hi) (view VInt fld) = true
  <-> field_int (fun v => v <= hi) fld.
Proof.
  unfold field_int. destruct fld as [| |v]; simpl.
  - split; [discriminate | intros (v & H & _); discriminate H].
  - split; [discriminate | intros (v & H & _); discriminate H].
  - destruct (Z.compare_spec v hi); simpl; split; intros H';
      try discriminate H'; try reflexivity;
      try (exists v; split; [reflexivity | lia]);
      destruct H' as (v' & Hv & Hle); injection Hv as <-; lia.
Qed.

(** The entry of the price bounds. *)
Lemma selects_price (E : Engine.t) (a : Params.t) (d : Raw.document) :
  selects E (price_clause a) d <->
  (forall lo, Params.min_price a = Some lo ->
              field_int (fun v => lo <= v) (Raw.price d))
  /\ (forall hi, Params.max_price a = Some hi ->
                 field_int (fun v => v <= hi) (Raw.price d)).
Proof.
  unfold price_clause, selects, Store.matches.
  destruct (Params.min_price a) as [lo|], (Params.max_price a) as [hi|];
    simpl;
    change (Raw.lookup "price" d) with (view VInt (Raw.price d));
    rewrite <- ?(cmp_ge_int), <- ?(cmp_le_int).
  - rewrite !andb_true_r. split.
    + intros H. injection H as H. apply andb_true_iff in H.
      destruct H as [H1 H2].
      split; intros x Hx; injection Hx as <-;
        [now apply cmp_ge_int | now apply cmp_le_int].
    + intros [H1 H2]. f_equal. apply andb_true_iff.
      split; [apply cmp_ge_int | apply cmp_le_int]; auto.
  - rewrite !andb_true_r. split.
    + intros H. injection H as H.
      split; intros x Hx; [injection Hx as <-|discriminate Hx].
      now apply cmp_ge_int.
    + intros [H1 _]. f_equal. apply cmp_ge_int. auto.
  - rewrite !andb_true_r. split.
    + intros H. injection H as H.
      split; intros x Hx; [discriminate Hx|injection Hx as <-].
      now apply cmp_le_int.
    + intros [_ H2]. f_equal. apply cmp_le_int. auto.
  - split; [|reflexivity]. intros _. split; intros x Hx; discriminate Hx.
Qed.

(** The entry of the bedrooms minimum. *)
Lemma selects_bedrooms (E : Engine.t) (a : Params.t) (d : Raw.document) :
  selects E (bedrooms_clause a) d <->
  (forall n, Params.bedrooms a = Some n ->
             field_int (fun v => n <= v) (Raw.bedrooms d)).
Proof.
  unfold bedrooms_clause, selects, Store.matches.
  destruct (Params.bedrooms a) as [n|]; simpl.
  - change (Raw.lookup "bedrooms" d) with (view VInt (Raw.bedrooms d)).
    rewrite !andb_true_r. split.
    + intros H. injection H as H. intros x Hx. injection Hx as <-.
      now apply cmp_ge_int.
    + intros H. f_equal. apply cmp_ge_int. auto.
  - split; [|reflexivity]. intros _ x Hx. discriminate Hx.
Qed.

End StoreFacts.

(** ** Building the response *)

Section ResponseFacts.

Lemma get_present {A : Type} (f : field A) (v : A) :
  get f = Some v <-> f = Stored v.
Proof.
  destruct f; simpl; split; intros H; try discriminate H;
    now injection H as ->.
Qed.

Lemma get_is_some {A : Type} (f : field A) : is_some (get f) = present f.
Proof. now destruct f. Qed.

Lemma get_default_is_some {A : Type} (f : field A) (x : A) :
  is_some (get_default f x) = not_null f.
Proof. now destruct f. Qed.

Lemma get_default_missing {A : Type} (f : field A) (x v : A) :
  f = Missing -> get_default f x = Some v -> v = x.
Proof. intros -> H. now injection H. Qed.

(** A model that was built holds exactly the values it was given. *)
Lemma new_ok_inv id title status price currency address city state country
      bedrooms bathrooms property_type area_sqft lot_size_sqft year_built
      parking_spaces hoa_fee description images features r :
  PropertyResponse.new id title status price currency address city state
    country bedrooms bathrooms property_type area_sqft lot_size_sqft
    year_built parking_spaces hoa_fee description images features = Ok r ->
  title = Some (PropertyResponse.title r)
  /\ status = Some (PropertyResponse.status r)
  /\ price = Some (PropertyResponse.price r)
  /\ currency = Some (PropertyResponse.currency r)
  /\ address = Some (PropertyResponse.address r)
  /\ city = Some (PropertyResponse.city r)
  /\ country = Some (PropertyResponse.country r)
  /\ bedrooms = Some (PropertyResponse.bedrooms r)
  /\ bathrooms = Some (PropertyResponse.bathrooms r)
  /\ property_type = Some (PropertyResponse.property_type r)
  /\ images = Some (PropertyResponse.images r)
  /\ features = Some (PropertyResponse.features r).
Proof.
  unfold PropertyResponse.new.
  destruct title; [|discriminate]. destruct status; [|discriminate].
  destruct price; [|discriminate]. destruct currency; [|discriminate].
  destruct address; [|discriminate]. destruct city; [|discriminate].
  destruct country; [|discriminate]. destruct bedrooms; [|discriminate].
  destruct bathrooms; [|discriminate].
  destruct property_type; [|discriminate].
  destruct images; [|discriminate]. destruct features; [|discriminate].
  intros H. injection H as <-. simpl. repeat split.
Qed.

(** The construction either returns or raises a validation error that
    names at least one field. *)
Lemma new_total id title status price currency address city state country
      bedrooms bathrooms property_type area_sqft lot_size_sqft year_built
      parking_spaces hoa_fee description images features :
  (exists r,
      PropertyResponse.new id title status price currency address city state
        country bedrooms bathrooms property_type area_sqft lot_size_sqft
        year_built parking_spaces hoa_fee description images features = Ok r)
  \/ (exists fields,
         fields <> []
         /\ PropertyResponse.new id title status price currency address city
              state country bedrooms bathrooms property_type area_sqft
              lot_size_sqft year_built parking_spaces hoa_fee description
              images features = Raise (ValidationError fields)).
Proof.
  unfold PropertyResponse.new.
  destruct title;
    [|right; eexists; split; [|reflexivity]; simpl; discriminate].
  destruct status;
    [|right; eexists; split; [|reflexivity]; simpl; discriminate].
  destruct price;
    [|right; eexists; split; [|reflexivity]; simpl; discriminate].
  destruct currency;
    [|right; eexists; split; [|reflexivity]; simpl; discriminate].
  destruct address;
    [|right; eexists; split; [|reflexivity]; simpl; discriminate].
  destruct city;
    [|right; eexists; split; [|reflexivity]; simpl; discriminate].
  destruct country;
    [|right; eexists; split; [|reflexivity]; simpl; discriminate].
  destruct bedrooms;
    [|right; eexists; split; [|reflexivity]; simpl; discriminate].
  destruct bathrooms;
    [|right; eexists; split; [|reflexivity]; simpl; discriminate].
  destruct property_type;
    [|right; eexists; split; [|reflexivity]; simpl; discriminate].
  destruct images;
    [|right; eexists; split; [|reflexivity]; simpl; discriminate].
  destruct features;
    [|right; eexists; split; [|reflexivity]; simpl; discriminate].
  left. eexists. reflexivity.
Qed.

Lemma is_some_true {A : Type} (o : option A) :
  is_some o = true <-> exists v, o = Some v.
Proof.
  destruct o; simpl; split; intros H; try discriminate H; eauto.
  destruct H as (v & H). discriminate H.
Qed.

(** A response is built exactly from the complete records. *)
Lemma response_of_ok_complete (d : Raw.document) :
  (exists r, response_of d = Ok r) <-> complete d = true.
Proof.
  unfold complete.
  rewrite <- !get_is_some.
  rewrite <- (get_default_is_some (Raw.currency d) "USD").
  rewrite <- (get_default_is_some (Raw.country d) "USA").
  rewrite <- (get_default_is_some (Raw.bedrooms d) 0).
  rewrite <- (get_default_is_some (Raw.bathrooms d) float_zero).
  rewrite <- (get_default_is_some (Raw.property_type d) "house").
  rewrite <- (get_default_is_some (Raw.images d) []).
  rewrite <- (get_default_is_some (Raw.features d) []).
  unfold response_of. split.
  - intros (r & H). apply new_ok_inv in H.
    destruct H as (H1 & H2 & H3 & H4 & H5 & H6 & H7 & H8 & H9 & H10 & H11 & H12).
    rewrite H1, H2, H3, H4, H5, H6, H7, H8, H9, H10, H11, H12. reflexivity.
  - intros H. rewrite !andb_true_iff in H.
    destruct H as (((((((((((H1 & H2) & H3) & H5) & H6) & H4) & H7) & H8)
                       & H9) & H10) & H11) & H12).
    apply is_some_true in H1, H2, H3, H4, H5, H6, H7, H8, H9, H10, H11, H12.
    destruct H1 as (? & ->), H2 as (? & ->), H3 as (? & ->), H4 as (? & ->),
      H5 as (? & ->), H6 as (? & ->), H7 as (? & ->), H8 as (? & ->),
      H9 as (? & ->), H10 as (? & ->), H11 as (? & ->), H12 as (? & ->).
    eexists. reflexivity.
Qed.

End ResponseFacts.

(** ** The filter of the route, criterion by criterion *)

Section FilterClaims.

(** Deciding an occurrence by running the search on a plain text. *)
Lemma not_occurs_ci (E : Engine.t) (q s : string) :
  Regex.search_from (Engine.canon E) true (lits (Utf8.decode q)) true
    (Utf8.decode s) = false ->
  ~ occurs_ci E q s.
Proof.
  intros H Ho.
  apply (search_from_lits (Engine.canon E) (Utf8.decode q) true (Utf8.decode s))
    in Ho.
  rewrite H in Ho. discriminate Ho.
Qed.

Lemma not_field_occurs (E : Engine.t) (q s : string) :
  Regex.search_from (Engine.canon E) true (lits (Utf8.decode q)) true
    (Utf8.decode s) = false ->
  ~ field_occurs E q (Stored s).
Proof.
  intros H (s' & Hs & Ho). injection Hs as <-.
  exact (not_occurs_ci E q s H Ho).
Qed.

Lemma not_field_occurs_missing (E : Engine.t) (q : string) :
  ~ field_occurs E q Missing.
Proof. intros (s & Hs & _). discriminate Hs. Qed.

(** C2, as stated, fails: the free text is handed to the store as a
    regular expression, so the text [.] selects a record titled [x], in
    none of whose fields a dot occurs. *)
Lemma free_text_is_a_pattern :
  selects sample (filter_query (criteria (Some ".") None None None 50))
          (listing "a1" "x" "y" 100)
  /\ ~ text_occurs sample "." (listing "a1" "x" "y" 100).
Proof.
  split; [reflexivity|].
  intros [H|[H|[H|H]]]; revert H; simpl.
  - now apply not_field_occurs.
  - now apply not_field_occurs.
  - apply not_field_occurs_missing.
  - now apply not_field_occurs.
Qed.

(** C2 (amended): for a non-empty free text [q] without regular-expression
    metacharacter or null character, the filter selects a record exactly
    when [q] occurs, up to letter case as the engine of the store folds
    it, in its title, city, state or address, and the filter of the other
    criteria selects it. *)
Theorem free_text_plain_substring (E : Engine.t) (a : Params.t) (q : string)
        (d : Raw.document) :
  Params.q a = Some q -> q <> EmptyString -> Regex.plain q = true ->
  selects E (filter_query a) d <->
  text_occurs E q d /\ selects E (filter_query (without_q a)) d.
Proof.
  intros Hq Hne Hp. rewrite !selects_filter_query.
  change (q_clause (without_q a)) with (@nil (string * qvalue)).
  change (status_clause (without_q a)) with (status_clause a).
  change (price_clause (without_q a)) with (price_clause a).
  change (bedrooms_clause (without_q a)) with (bedrooms_clause a).
  change (bathrooms_clause (without_q a)) with (bathrooms_clause a).
  change (Params.city (without_q a)) with (Params.city a).
  change (Params.state (without_q a)) with (Params.state a).
  change (Params.property_type (without_q a)) with (Params.property_type a).
  rewrite (selects_q E a q d Hq Hne Hp).
  pose proof (selects_nil E d). tauto.
Qed.

Lemma free_text_plain_substring_witness :
  text_occurs sample "é" (listing "a1" "CAFÉ" "Austin" 100)
  /\ selects sample
       (filter_query (without_q (criteria (Some "é") (Some 50) None None 50)))
       (listing "a1" "CAFÉ" "Austin" 100).
Proof.
  apply (free_text_plain_substring sample
           (criteria (Some "é") (Some 50) None None 50) "é"
           (listing "a1" "CAFÉ" "Austin" 100)).
  - reflexivity.
  - discriminate.
  - reflexivity.
  - reflexivity.
Defined.

(** C3, as stated, fails: the city is spliced into a regular expression,
    so the criterion [A.stin] selects a record of [Austin], which it does
    not equal up to letter case. *)
Lemma exact_text_is_a_pattern :
  selects sample (filter_query (criteria None None None (Some "A.stin") 50))
          (listing "a1" "Loft" "Austin" 100)
  /\ ~ equal_ci sample "Austin" "A.stin".
Proof.
  split; [reflexivity | discriminate].
Qed.

(** A criterion matched exactly, when it is a plain text. *)
Lemma selects_criterion (E : Engine.t) (k : exact_field) (a : Params.t)
      (t : string) (d : Raw.document) :
  criterion k a = Some t -> t <> EmptyString -> Regex.plain t = true ->
  selects E (filter_query a) d <->
  field_equal_ci E t (stored k d) /\ selects E (filter_query (without k a)) d.
Proof.
  intros Hk Hne Hp. rewrite !selects_filter_query.
  change (q_clause (without k a)) with (q_clause a).
  change (status_clause (without k a)) with (status_clause a).
  change (price_clause (without k a)) with (price_clause a).
  change (bedrooms_clause (without k a)) with (bedrooms_clause a).
  change (bathrooms_clause (without k a)) with (bathrooms_clause a).
  destruct k; simpl in Hk; simpl stored; simpl Params.city;
    simpl Params.state; simpl Params.property_type.
  - rewrite (selects_exact E "city" (Params.city a) t (Raw.city d) d
               eq_refl eq_refl Hk Hne Hp).
    change (exact_clause "city" None) with (@nil (string * qvalue)).
    pose proof (selects_nil E d). tauto.
  - rewrite (selects_exact E "state" (Params.state a) t (Raw.state d) d
               eq_refl eq_refl Hk Hne Hp).
    change (exact_clause "state" None) with (@nil (string * qvalue)).
    pose proof (selects_nil E d). tauto.
  - rewrite (selects_exact E "property_type" (Params.property_type a) t
               (Raw.property_type d) d eq_refl eq_refl Hk Hne Hp).
    change (exact_clause "property_type" None) with (@nil (string * qvalue)).
    pose proof (selects_nil E d). tauto.
Qed.

(** [Aust] is not [Austin], with or without a final newline. *)
Lemma aust_is_not_austin (E : Engine.t) :
  ~ field_equal_ci E "Aust" (Stored "Austin").
Proof.
  intros (s & Hs & H). injection Hs as <-.
  destruct H as [H | (s' & Hd & H)].
  - apply (f_equal (@List.length N)) in H.
    unfold casefold, folded in H. rewrite !length_map in H.
    discriminate H.
  - apply (f_equal (@List.length N)) in H, Hd.
    unfold casefold, folded in H. rewrite !length_map in H.
    rewrite length_app in Hd. rewrite H in Hd. discriminate Hd.
Qed.

(** C3 (amended): for a non-empty city, state or property type without
    regular-expression metacharacter or null character, the filter selects
    a record exactly when the stored field equals the criterion up to
    letter case as the engine of the store folds it, one final newline of
    the stored text being ignored, and the filter of the other criteria
    selects it.  So the cities [austin] and [AUSTIN] accept a record of
    [Austin], and [Aust] accepts none. *)
Theorem exact_text_plain_equal (E : Engine.t) (k : exact_field) (a : Params.t)
        (t : string) (d : Raw.document) :
  (criterion k a = Some t -> t <> EmptyString -> Regex.plain t = true ->
   (selects E (filter_query a) d <->
    field_equal_ci E t (stored k d)
    /\ selects E (filter_query (without k a)) d))
  /\ (Raw.city d = Stored "Austin" ->
      (Params.city a = Some "austin" \/ Params.city a = Some "AUSTIN" ->
       (selects E (filter_query a) d <->
        selects E (filter_query (without City a)) d))
      /\ (Params.city a = Some "Aust" -> ~ selects E (filter_query a) d)).
Proof.
  split; [apply selects_criterion|].
  intros Hd. split.
  - intros [Hc | Hc];
      rewrite (selects_criterion E City a _ d Hc ltac:(discriminate) eq_refl);
      simpl stored; rewrite Hd;
      (split; [now intros [_ H] | intros H; split; [|exact H]]);
      exists "Austin"; (split; [reflexivity | left; reflexivity]).
  - intros Hc.
    rewrite (selects_criterion E City a _ d Hc ltac:(discriminate) eq_refl).
    simpl stored. rewrite Hd. intros [H _].
    exact (aust_is_not_austin E H).
Qed.

Lemma exact_text_plain_equal_witness :
  (field_equal_ci sample "ÉVORA" (Raw.city (listing "a1" "Loft" "Évora" 100))
   /\ selects sample
        (filter_query (without City (criteria None None None (Some "ÉVORA") 50)))
        (listing "a1" "Loft" "Évora" 100))
  /\ selects sample (filter_query (criteria None None None (Some "AUSTIN") 50))
             (listing "a1" "Loft" "Austin" 100)
  /\ ~ selects sample (filter_query (criteria None None None (Some "Aust") 50))
               (listing "a1" "Loft" "Austin" 100).
Proof.
  split; [|split].
  - apply (proj1 (exact_text_plain_equal sample City
                    (criteria None None None (Some "ÉVORA") 50) "ÉVORA"
                    (listing "a1" "Loft" "Évora" 100))).
    + reflexivity.
    + discriminate.
    + reflexivity.
    + reflexivity.
  - destruct (proj2 (exact_text_plain_equal sample City
                       (criteria None None None (Some "AUSTIN") 50) "AUSTIN"
                       (listing "a1" "Loft" "Austin" 100)) eq_refl)
      as [Hyes _].
    apply (Hyes (or_intror eq_refl)). reflexivity.
  - destruct (proj2 (exact_text_plain_equal sample City
                       (criteria None None None (Some "Aust") 50) "Aust"
                       (listing "a1" "Loft" "Austin" 100)) eq_refl)
      as [_ Hno].
    exact (Hno eq_refl).
Defined.

(** The examples of the specification: [austin] and [AUSTIN] select a
    record of [Austin], [Aust] does not. *)
Lemma city_austin_examples :
  selects sample (filter_query (criteria None None None (Some "austin") 50))
          (listing "a1" "Loft" "Austin" 100)
  /\ selects sample (filter_query (criteria None None None (Some "AUSTIN") 50))
             (listing "a1" "Loft" "Austin" 100)
  /\ ~ selects sample (filter_query (criteria None None None (Some "Aust") 50))
               (listing "a1" "Loft" "Austin" 100).
Proof.
  repeat split; discriminate.
Qed.

End FilterClaims.

(** ** Absent and empty criteria *)

Section AbsentCriteria.

(** C5: when every criterion but the status is absent, the filter is the
    single entry of the status, the store interprets it, and the compiled
    predicate holds exactly of the records whose stored status is that
    value. *)
Theorem status_only_identity (E : Engine.t) (a : Params.t) :
  only_status a ->
  filter_query a = [("status", QScalar (SStr (Params.status a)))]
  /\ exists p, Store.compile E (filter_query a) = Some p
               /\ forall d, p d = true <-> Raw.status d = Stored (Params.status a).
Proof.
  intros (Hq & Hlo & Hhi & Hbeds & Hbaths & Hcity & Hstate & Hptype).
  assert (Heq : filter_query a = status_clause a).
  { rewrite filter_query_clauses.
    unfold clauses, q_clause, price_clause, bedrooms_clause,
      bathrooms_clause.
    now rewrite Hq, Hlo, Hhi, Hbeds, Hbaths, Hcity, Hstate, Hptype. }
  split; [exact Heq|].
  rewrite Heq. eexists. split; [reflexivity|].
  intros d. rewrite <- (selects_status E a d).
  unfold selects, Store.matches, status_clause. simpl.
  split; [intros -> | intros H; injection H]; trivial.
Qed.

Lemma status_only_identity_witness :
  filter_query (criteria None None None None 50)
  = [("status", QScalar (SStr "sale"))]
  /\ exists p,
      Store.compile sample (filter_query (criteria None None None None 50))
      = Some p
      /\ forall d, p d = true <-> Raw.status d = Stored "sale".
Proof.
  apply (status_only_identity sample (criteria None None None None 50)).
  repeat split.
Defined.

Lemma blank_clause (key : string) (text : option string) :
  exact_clause key (blank_as_absent text) = exact_clause key text.
Proof. destruct text as [[|c t]|]; reflexivity. Qed.

Lemma blank_q_clause (a : Params.t) :
  q_clause (blanks_as_absent a) = q_clause a.
Proof.
  unfold q_clause. simpl. destruct (Params.q a) as [[|c t]|]; reflexivity.
Qed.

(** The entry of a bathrooms minimum of zero. *)
Lemma selects_bathrooms_zero (E : Engine.t) (a : Params.t) (d : Raw.document) :
  Params.bathrooms a = Some float_zero ->
  selects E (bathrooms_clause a) d <->
  exists b, Raw.bathrooms d = Stored b /\ float_le float_zero b = true.
Proof.
  intros H. unfold bathrooms_clause, selects, Store.matches. rewrite H.
  simpl.
  change (Raw.lookup "bathrooms" d) with (view VFloat (Raw.bathrooms d)).
  destruct (Raw.bathrooms d) as [| |b]; simpl.
  - split; [discriminate | intros (b & Hb & _); discriminate Hb].
  - split; [discriminate | intros (b & Hb & _); discriminate Hb].
  - split.
    + intros Hm. exists b. split; [reflexivity|].
      destruct b as [[|]|[|]| |[|] m e]; simpl in *;
        try discriminate Hm; reflexivity.
    + intros (b' & Hb & Hle). injection Hb as <-.
      destruct b as [[|]|[|]| |[|] m e]; simpl in *;
        try discriminate Hle; reflexivity.
Qed.

(** C10: an empty [q], [city], [state] or [property_type] leaves the
    filter as it is without that criterion, while a bedrooms or bathrooms
    minimum of zero adds its [$gte] entry, which only a record that stores
    a number of at least zero under that key satisfies. *)
Theorem empty_text_is_absent (E : Engine.t) (a : Params.t) :
  filter_query a = filter_query (blanks_as_absent a)
  /\ (Params.bedrooms a = Some 0 ->
      PyDict.get (filter_query a) "bedrooms" = Some (QOps [("$gte", SInt 0)])
      /\ forall d, selects E (filter_query a) d ->
                   field_int (fun v => 0 <= v) (Raw.bedrooms d))
  /\ (Params.bathrooms a = Some float_zero ->
      PyDict.get (filter_query a) "bathrooms"
      = Some (QOps [("$gte", SFloat float_zero)])
      /\ forall d, selects E (filter_query a) d ->
                   exists b, Raw.bathrooms d = Stored b
                             /\ float_le float_zero b = true).
Proof.
  split; [|split].
  - rewrite !filter_query_clauses. unfold clauses.
    rewrite blank_q_clause. simpl Params.city. simpl Params.state.
    simpl Params.property_type. now rewrite !blank_clause.
  - intros H. split.
    + rewrite filter_query_clauses.
      unfold clauses, status_clause, q_clause, price_clause,
        bedrooms_clause.
      rewrite H.
      destruct (Params.q a) as [[|c t]|], (Params.min_price a),
        (Params.max_price a); reflexivity.
    + intros d Hd. apply selects_filter_query in Hd.
      destruct Hd as (_ & _ & _ & Hb & _).
      exact (proj1 (selects_bedrooms E a d) Hb 0 H).
  - intros H. split.
    + rewrite filter_query_clauses.
      unfold clauses, status_clause, q_clause, price_clause,
        bedrooms_clause, bathrooms_clause.
      rewrite H.
      destruct (Params.q a) as [[|c t]|], (Params.min_price a),
        (Params.max_price a), (Params.bedrooms a); reflexivity.
    + intros d Hd. apply selects_filter_query in Hd.
      destruct Hd as (_ & _ & _ & _ & Hb & _).
      exact (proj1 (selects_bathrooms_zero E a d H) Hb).
Qed.

Lemma empty_text_is_absent_witness :
  filter_query zero_minimums
  = [("status", QScalar (SStr "sale"));
     ("bedrooms", QOps [("$gte", SInt 0)]);
     ("bathrooms", QOps [("$gte", SFloat float_zero)])]
  /\ PyDict.get (filter_query zero_minimums) "bedrooms"
     = Some (QOps [("$gte", SInt 0)])
  /\ PyDict.get (filter_query zero_minimums) "bathrooms"
     = Some (QOps [("$gte", SFloat float_zero)])
  /\ ~ selects sample (filter_query zero_minimums) (listing "a1" "Loft" "Austin" 100).
Proof.
  destruct (empty_text_is_absent sample zero_minimums) as (H1 & H2 & H3).
  split; [rewrite H1; reflexivity|].
  split; [apply (H2 eq_refl)|].
  split; [apply (H3 eq_refl)|].
  intros Hs. destruct (proj2 (H2 eq_refl) _ Hs) as (v & Hv & _).
  discriminate Hv.
Defined.

End AbsentCriteria.

(** ** The route *)

Section RouteFacts.

Lemma collect_acc (docs : list Raw.document) :
  forall acc results,
    collect docs acc = Ok results ->
    exists built,
      results = (acc ++ built)%list
      /\ Forall2 (fun d r => response_of d = Ok r) docs built.
Proof.
  induction docs as [|d docs IH]; intros acc results H; simpl in H.
  - injection H as <-. exists []. split; [now rewrite app_nil_r | constructor].
  - destruct (response_of d) as [r| |] eqn:Hd; try discriminate H.
    destruct (IH _ _ H) as (built & -> & HF).
    exists (r :: built). split; [now rewrite <- app_assoc | now constructor].
Qed.

(** The loop returns one response per document, in order. *)
Lemma collect_ok (docs : list Raw.document) (results : list PropertyResponse.t) :
  collect docs [] = Ok results ->
  Forall2 (fun d r => response_of d = Ok r) docs results.
Proof.
  intros H. destruct (collect_acc docs [] results H) as (built & -> & HF).
  exact HF.
Qed.

Lemma Forall2_in_right {A B : Type} (R : A -> B -> Prop) (l : list A)
      (l' : list B) (y : B) :
  Forall2 R l l' -> In y l' -> exists x, In x l /\ R x y.
Proof.
  induction 1 as [|x y' l l' HR HF IH]; intros Hin; [contradiction|].
  destruct Hin as [<- | Hin].
  - exists x. split; [now left | exact HR].
  - destruct (IH Hin) as (x' & Hx & HR'). exists x'. split; [now right | exact HR'].
Qed.

Lemma Forall2_same_length {A B : Type} (R : A -> B -> Prop) (l : list A)
      (l' : list B) :
  Forall2 R l l' -> List.length l = List.length l'.
Proof. induction 1; simpl; congruence. Qed.

Lemma limit_incl (n : Z) (docs : list Raw.document) (d : Raw.document) :
  In d (Store.limit n docs) -> In d docs.
Proof.
  unfold Store.limit. destruct (n =? 0); [trivial|].
  intros H. rewrite <- (firstn_skipn (Z.to_nat (Z.abs n)) docs).
  apply in_or_app. now left.
Qed.

Lemma limit_length (n : Z) (docs : list Raw.document) :
  1 <= n -> Z.of_nat (List.length (Store.limit n docs)) <= n.
Proof.
  intros Hn. unfold Store.limit.
  destruct (Z.eqb_spec n 0) as [Hz|_]; [lia|].
  pose proof (firstn_le_length (Z.to_nat (Z.abs n)) docs). lia.
Qed.

Lemma covered_exact (key : string) (text : option string) :
  Store.field_key key = true ->
  forallb Store.covered_clause (exact_clause key text) = true.
Proof.
  intros H. unfold exact_clause.
  destruct text as [[|c t]|]; simpl; now rewrite ?H.
Qed.

(** The route builds filters of the operators that are modelled. *)
Lemma covered_filter_query (a : Params.t) :
  Store.covered (filter_query a) = true.
Proof.
  rewrite filter_query_clauses. unfold clauses, Store.covered.
  rewrite !forallb_app, !covered_exact by reflexivity.
  assert (Hq : forallb Store.covered_clause (q_clause a) = true)
    by (unfold q_clause; destruct (Params.q a) as [[|c t]|]; reflexivity).
  assert (Hp : forallb Store.covered_clause (price_clause a) = true)
    by (unfold price_clause;
        destruct (Params.min_price a), (Params.max_price a); reflexivity).
  assert (Hb : forallb Store.covered_clause (bedrooms_clause a) = true)
    by (unfold bedrooms_clause; destruct (Params.bedrooms a); reflexivity).
  assert (Hf : forallb Store.covered_clause (bathrooms_clause a) = true)
    by (unfold bathrooms_clause; destruct (Params.bathrooms a); reflexivity).
  now rewrite Hq, Hp, Hb, Hf.
Qed.

Lemma encodable_exact (key : string) (text : option string) :
  forallb (fun entry => Store.encodable_value (snd entry))
          (exact_clause key text) = true.
Proof. unfold exact_clause. destruct text as [[|c t]|]; reflexivity. Qed.

(** The driver can encode the filter and the limit of the route exactly
    when the integers of the criteria fit in eight bytes. *)
Lemma encodable_filter_query (a : Params.t) :
  (Store.encodable (filter_query a) && Store.int64 (Z.abs (Params.limit a)))%bool
  = integers_encodable a.
Proof.
  rewrite filter_query_clauses. unfold clauses, Store.encodable.
  rewrite !forallb_app, !encodable_exact.
  assert (Hq : forallb (fun entry => Store.encodable_value (snd entry))
                       (q_clause a) = true)
    by (unfold q_clause; destruct (Params.q a) as [[|c t]|]; reflexivity).
  assert (Hp : forallb (fun entry => Store.encodable_value (snd entry))
                       (price_clause a)
               = (int64_opt (Params.min_price a)
                  && int64_opt (Params.max_price a))%bool).
  { unfold price_clause, int64_opt.
    destruct (Params.min_price a) as [lo|], (Params.max_price a) as [hi|];
      simpl; try reflexivity;
      repeat match goal with
             | |- context [Store.int64 ?z] => destruct (Store.int64 z)
             end; reflexivity. }
  assert (Hb : forallb (fun entry => Store.encodable_value (snd entry))
                       (bedrooms_clause a)
               = int64_opt (Params.bedrooms a)).
  { unfold bedrooms_clause, int64_opt.
    destruct (Params.bedrooms a) as [n|]; simpl; try reflexivity.
    now destruct (Store.int64 n). }
  assert (Hf : forallb (fun entry => Store.encodable_value (snd entry))
                       (bathrooms_clause a) = true)
    by (unfold bathrooms_clause; destruct (Params.bathrooms a); reflexivity).
  rewrite Hq, Hp, Hb, Hf. unfold integers_encodable, status_clause. simpl.
  destruct (int64_opt (Params.min_price a)), (int64_opt (Params.max_price a)),
    (int64_opt (Params.bedrooms a)); reflexivity.
Qed.

(** [find] on the filter of the route: an integer too large for the
    driver, a pattern the store refuses, or the documents. *)
Lemma find_route (store : Store.database) (a : Params.t) :
  Store.find store "property" (filter_query a) (Params.limit a)
  = if integers_encodable a then
      match Store.compile (Store.engine store) (filter_query a) with
      | Some p =>
          (Ok (Store.limit (Params.limit a)
                 (List.filter p (Store.collection store "property"))),
           [Store.Find "property" (filter_query a) (Params.limit a)])
      | None =>
          (Raise OperationFailure,
           [Store.Find "property" (filter_query a) (Params.limit a)])
      end
    else (Raise OverflowError, []).
Proof.
  unfold Store.find.
  rewrite (encodable_filter_query a), (covered_filter_query a).
  now destruct (integers_encodable a).
Qed.

(** What a returned list of [list_properties] is made of. *)
Lemma list_properties_ok (store : Store.database) (a : Params.t)
      (results : list PropertyResponse.t) (calls : list Store.call) :
  list_properties (Some store) a = (Ok results, calls) ->
  calls = [Store.Find "property" (filter_query a) (Params.limit a)]
  /\ exists p docs,
      Store.compile (Store.engine store) (filter_query a) = Some p
      /\ docs = Store.limit (Params.limit a)
                  (List.filter p (Store.collection store "property"))
      /\ Forall2 (fun d r => response_of d = Ok r) docs results.
Proof.
  unfold list_properties. rewrite find_route.
  destruct (integers_encodable a); [|discriminate].
  destruct (Store.compile (Store.engine store) (filter_query a)) as [p|] eqn:Hp;
    [|discriminate].
  intros H. injection H as H <-. split; [reflexivity|].
  exists p, (Store.limit (Params.limit a)
               (List.filter p (Store.collection store "property"))).
  repeat split. now apply collect_ok.
Qed.

(** Every returned response was built from a record the filter selects. *)
Lemma list_properties_selected (store : Store.database) (a : Params.t)
      (results : list PropertyResponse.t) (calls : list Store.call)
      (r : PropertyResponse.t) :
  list_properties (Some store) a = (Ok results, calls) -> In r results ->
  exists d, In d (Store.collection store "property")
            /\ selects (Store.engine store) (filter_query a) d
            /\ response_of d = Ok r.
Proof.
  intros H Hin.
  destruct (list_properties_ok _ _ _ _ H) as (_ & p & docs & Hp & -> & HF).
  destruct (Forall2_in_right _ _ _ _ HF Hin) as (d & Hd & Hr).
  apply limit_incl, filter_In in Hd. destruct Hd as [Hd Hpd].
  exists d. repeat split; trivial.
  unfold selects, Store.matches. rewrite Hp. simpl. now rewrite Hpd.
Qed.

(** A predicate that accepts nothing fetches nothing. *)
Lemma fetch_nothing (E : Engine.t) (f : filter) (n : Z) (p : Store.predicate)
      (docs : list Raw.document) :
  Store.compile E f = Some p -> (forall d, ~ selects E f d) ->
  Store.limit n (List.filter p docs) = [].
Proof.
  intros Hp Hnone.
  assert (Hnil : List.filter p docs = []).
  { destruct (List.filter p docs) as [|d l] eqn:El; [reflexivity|].
    assert (Hd : In d (List.filter p docs)) by (rewrite El; now left).
    apply filter_In in Hd. destruct Hd as [_ Hpd].
    exfalso. apply (Hnone d). unfold selects, Store.matches.
    rewrite Hp. simpl. now rewrite Hpd. }
  rewrite Hnil. unfold Store.limit.
  destruct (n =? 0); [reflexivity|].
  now rewrite firstn_nil.
Qed.

(** What the search does when the filter selects no record: it fails on
    an integer the driver cannot encode or on a pattern the store refuses,
    and returns the empty list if not. *)
Lemma list_properties_nothing (store : Store.database) (a : Params.t) :
  (forall d, ~ selects (Store.engine store) (filter_query a) d) ->
  list_properties (Some store) a
  = if integers_encodable a then
      match Store.compile (Store.engine store) (filter_query a) with
      | Some _ =>
          (Ok [], [Store.Find "property" (filter_query a) (Params.limit a)])
      | None =>
          (Raise OperationFailure,
           [Store.Find "property" (filter_query a) (Params.limit a)])
      end
    else (Raise OverflowError, []).
Proof.
  intros Hnone. unfold list_properties. rewrite find_route.
  destruct (integers_encodable a); [|reflexivity].
  destruct (Store.compile (Store.engine store) (filter_query a)) as [p|] eqn:Hp;
    [|reflexivity].
  now rewrite (fetch_nothing _ _ _ p _ Hp Hnone).
Qed.

Lemma interpreted_app (E : Engine.t) (f g : filter) :
  interpreted E (f ++ g) <-> interpreted E f /\ interpreted E g.
Proof.
  unfold interpreted. induction f as [|[key qv] f IH]; simpl.
  - split; [intros H; split; [eexists; reflexivity | exact H] | now intros [_ H]].
  - destruct (Store.compile_clause E key qv) as [c|].
    + destruct (Store.compile E (f ++ g)) as [pfg|],
        (Store.compile E f) as [pf|]; split.
      * intros _. split; [eexists; reflexivity|].
        apply IH. eexists. reflexivity.
      * intros _. eexists. reflexivity.
      * intros _. exfalso.
        destruct (proj1 IH (ex_intro _ pfg eq_refl)) as ((x & Hx) & _).
        discriminate Hx.
      * intros ((x & Hx) & _). discriminate Hx.
      * intros (x & Hx). discriminate Hx.
      * intros (_ & Hg).
        destruct (proj2 IH (conj (ex_intro _ pf eq_refl) Hg)) as (x & Hx).
        discriminate Hx.
      * intros (x & Hx). discriminate Hx.
      * intros ((x & Hx) & _). discriminate Hx.
    + split; [intros (x & Hx); discriminate Hx
             | intros ((x & Hx) & _); discriminate Hx].
Qed.

Lemma compile_ops_refused (E : Engine.t) (p : string) :
  Store.compile_ops E (regex_i p) = None <-> Regex.compile E p "i" = None.
Proof.
  pose proof (compile_ops_regex E p None) as H.
  destruct (Store.compile_ops E (regex_i p)), (Regex.compile E p "i");
    simpl in H; split; intros H'; try discriminate H; try discriminate H';
    reflexivity.
Qed.

Lemma interpreted_q (E : Engine.t) (a : Params.t) :
  interpreted E (q_clause a) <-> pattern_accepted E (fun t => t) (Params.q a).
Proof.
  unfold q_clause, interpreted, pattern_accepted.
  destruct (Params.q a) as [[|c t]|];
    [split; [trivial | intros _; eexists; reflexivity]
    | | split; [trivial | intros _; eexists; reflexivity]].
  pose proof (compile_ops_refused E (String c t)) as Href.
  remember (String c t) as q' eqn:Eq'. remember (regex_i q') as o eqn:Eo.
  unfold Store.compile, Store.compile_clause, Store.compile_alts,
    Store.compile_alt.
  simpl String.eqb. cbv iota.
  destruct (Store.compile_ops E o) as [m|]; split.
  - intros _ Hnone. apply Href in Hnone. discriminate Hnone.
  - intros _. eexists. reflexivity.
  - intros (x & Hx). discriminate Hx.
  - intros Hacc. exfalso. apply Hacc. now apply Href.
Qed.

Lemma interpreted_exact (E : Engine.t) (key : string) (text : option string) :
  String.eqb key "$or" = false ->
  interpreted E (exact_clause key text) <-> pattern_accepted E anchored text.
Proof.
  intros Hkey. unfold exact_clause, interpreted, pattern_accepted.
  destruct text as [[|c t]|];
    [split; [trivial | intros _; eexists; reflexivity]
    | | split; [trivial | intros _; eexists; reflexivity]].
  pose proof (compile_ops_refused E (anchored (String c t))) as Href.
  unfold Store.compile, Store.compile_clause. rewrite Hkey.
  destruct (Store.compile_ops E (regex_i (anchored (String c t)))) as [m|];
    simpl; split.
  - intros _ Hnone. apply Href in Hnone. discriminate Hnone.
  - intros _. eexists. reflexivity.
  - intros (x & Hx). discriminate Hx.
  - intros Hacc. exfalso. apply Hacc. now apply Href.
Qed.

(** The store interprets the filter of the route exactly when the engine
    accepts the patterns of the text criteria: nothing else in the filter
    can be refused. *)
Lemma interpreted_filter_query (E : Engine.t) (a : Params.t) :
  interpreted E (filter_query a) <-> patterns_accepted E a.
Proof.
  rewrite filter_query_clauses. unfold clauses, patterns_accepted.
  rewrite !interpreted_app.
  rewrite (interpreted_q E a).
  rewrite (interpreted_exact E "city" _ eq_refl).
  rewrite (interpreted_exact E "state" _ eq_refl).
  rewrite (interpreted_exact E "property_type" _ eq_refl).
  assert (H1 : interpreted E (status_clause a)) by (eexists; reflexivity).
  assert (H2 : interpreted E (price_clause a)).
  { unfold price_clause.
    destruct (Params.min_price a), (Params.max_price a); eexists; reflexivity. }
  assert (H3 : interpreted E (bedrooms_clause a)).
  { unfold bedrooms_clause. destruct (Params.bedrooms a); eexists; reflexivity. }
  assert (H4 : interpreted E (bathrooms_clause a)).
  { unfold bathrooms_clause.
    destruct (Params.bathrooms a); eexists; reflexivity. }
  tauto.
Qed.

(** Plain texts are patterns every engine accepts. *)
Lemma plain_accepted (E : Engine.t) (a : Params.t) :
  plain_texts a = true -> patterns_accepted E a.
Proof.
  unfold plain_texts, patterns_accepted, pattern_accepted, plain_opt.
  rewrite !andb_true_iff. intros (((Hq & Hcity) & Hstate) & Hptype).
  repeat split.
  - destruct (Params.q a) as [[|c t]|]; trivial.
    now rewrite (compile_plain E _ Hq).
  - destruct (Params.city a) as [[|c t]|]; trivial.
    now rewrite (compile_anchored E _ Hcity).
  - destruct (Params.state a) as [[|c t]|]; trivial.
    now rewrite (compile_anchored E _ Hstate).
  - destruct (Params.property_type a) as [[|c t]|]; trivial.
    now rewrite (compile_anchored E _ Hptype).
Qed.

Lemma collect_total (docs : list Raw.document) :
  (forall d, In d docs -> complete d = true) ->
  forall acc, exists results, collect docs acc = Ok results.
Proof.
  induction docs as [|d docs IH]; intros Hall acc; simpl.
  - now exists acc.
  - destruct (proj2 (response_of_ok_complete d) (Hall d (or_introl eq_refl)))
      as (r & ->).
    apply IH. intros d' Hd'. apply Hall. now right.
Qed.

(** The search returns when the integers fit, the engine accepts the
    patterns and every stored record is complete. *)
Lemma list_properties_returns (store : Store.database) (a : Params.t) :
  integers_encodable a = true ->
  patterns_accepted (Store.engine store) a ->
  (forall d, In d (Store.collection store "property") -> complete d = true) ->
  exists results,
    list_properties (Some store) a
    = (Ok results, [Store.Find "property" (filter_query a) (Params.limit a)]).
Proof.
  intros Hint Hacc Hall.
  destruct (proj2 (interpreted_filter_query _ a) Hacc) as (p & Hp).
  unfold list_properties. rewrite find_route, Hint, Hp.
  destruct (collect_total
              (Store.limit (Params.limit a)
                 (List.filter p (Store.collection store "property"))))
    with (acc := @nil PropertyResponse.t) as (results & ->).
  - intros d Hd. apply limit_incl, filter_In in Hd. now apply Hall.
  - now exists results.
Qed.

Lemma response_of_fields (d : Raw.document) (r : PropertyResponse.t) :
  response_of d = Ok r ->
  Raw.price d = Stored (PropertyResponse.price r)
  /\ get_default (Raw.currency d) "USD" = Some (PropertyResponse.currency r)
  /\ get_default (Raw.country d) "USA" = Some (PropertyResponse.country r)
  /\ get_default (Raw.bedrooms d) 0 = Some (PropertyResponse.bedrooms r)
  /\ get_default (Raw.bathrooms d) float_zero
     = Some (PropertyResponse.bathrooms r)
  /\ get_default (Raw.property_type d) "house"
     = Some (PropertyResponse.property_type r)
  /\ get_default (Raw.images d) [] = Some (PropertyResponse.images r)
  /\ get_default (Raw.features d) [] = Some (PropertyResponse.features r).
Proof.
  intros H. apply new_ok_inv in H.
  destruct H as (_ & _ & H3 & H4 & _ & _ & H7 & H8 & H9 & H10 & H11 & H12).
  apply get_present in H3. now repeat split.
Qed.

Lemma collect_modelled (docs : list Raw.document) :
  forall acc, collect docs acc <> Unmodelled.
Proof.
  induction docs as [|d docs IH]; intros acc; simpl; [discriminate|].
  unfold response_of.
  destruct (new_total (str_of_id (get (Raw._id d))) (get (Raw.title d))
              (get (Raw.status d)) (get (Raw.price d))
              (get_default (Raw.currency d) "USD") (get (Raw.address d))
              (get (Raw.city d)) (get (Raw.state d))
              (get_default (Raw.country d) "USA")
              (get_default (Raw.bedrooms d) 0)
              (get_default (Raw.bathrooms d) float_zero)
              (get_default (Raw.property_type d) "house")
              (get (Raw.area_sqft d)) (get (Raw.lot_size_sqft d))
              (get (Raw.year_built d)) (get (Raw.parking_spaces d))
              (get (Raw.hoa_fee d)) (get (Raw.description d))
              (get_default (Raw.images d) []) (get_default (Raw.features d) []))
    as [(r & ->) | (fields & _ & ->)]; [apply IH | discriminate].
Qed.

(** Every run of the route is accounted for: it returns a list or raises
    an exception, whatever the criteria, the engine and the records. *)
Lemma list_properties_modelled (db : option Store.database) (a : Params.t) :
  fst (list_properties db a) <> Unmodelled.
Proof.
  destruct db as [store|]; [|discriminate].
  unfold list_properties. rewrite find_route.
  destruct (integers_encodable a); [|discriminate].
  destruct (Store.compile (Store.engine store) (filter_query a));
    [apply collect_modelled | discriminate].
Qed.

Lemma get_properties_modelled (db : option Store.database) (r : Request.t) :
  fst (get_properties db r) <> Unmodelled.
Proof.
  unfold get_properties, bind.
  destruct (_ ++ _)%list; [apply list_properties_modelled | discriminate].
Qed.

End RouteFacts.

(** ** Binding the query parameters *)

Section BindingFacts.

Lemma check_ge_nil (name : string) (bound : Z) (o : option Z) :
  check_ge name bound o = [] <-> forall v, o = Some v -> bound <= v.
Proof.
  unfold check_ge. destruct o as [v|].
  - destruct (Z.leb_spec bound v); split; intros H'.
    + intros x Hx. injection Hx as <-. assumption.
    + reflexivity.
    + discriminate H'.
    + specialize (H' v eq_refl). lia.
  - split; [intros _ v Hv; discriminate Hv | reflexivity].
Qed.

Lemma check_le_nil (name : string) (bound : Z) (o : option Z) :
  check_le name bound o = [] <-> forall v, o = Some v -> v <= bound.
Proof.
  unfold check_le. destruct o as [v|].
  - destruct (Z.leb_spec v bound); split; intros H'.
    + intros x Hx. injection Hx as <-. assumption.
    + reflexivity.
    + discriminate H'.
    + specialize (H' v eq_refl). lia.
  - split; [intros _ v Hv; discriminate Hv | reflexivity].
Qed.

(** A double below zero is not at least zero. *)
Lemma float_lt_not_le (v : float) :
  float_lt v float_zero = true -> float_le float_zero v = false.
Proof.
  destruct v as [[|]|[|]| |[|] m e]; simpl; intros H;
    try discriminate H; reflexivity.
Qed.

Lemma check_ge_float_nil (name : string) (v : float) :
  check_ge_float name float_zero (Some v) = [] ->
  float_lt v float_zero = false.
Proof.
  unfold check_ge_float. destruct (float_lt v float_zero) eqn:E; [|trivial].
  rewrite (float_lt_not_le v E). discriminate.
Qed.

(** What the route receives from a request that was accepted. *)
Lemma bind_ok (r : Request.t) (a : Params.t) :
  bind r = Ok a ->
  Params.limit a = default (Request.limit r) 50
  /\ Params.status a = default (Request.status r) "sale"
  /\ 1 <= Params.limit a <= 200.
Proof.
  unfold bind.
  destruct (_ ++ _)%list as [|x bad] eqn:E; [|discriminate].
  intros H. injection H as <-. simpl.
  repeat (apply app_eq_nil in E; destruct E as [?E E]).
  pose proof (proj1 (check_ge_nil _ _ _) E4 _ eq_refl).
  pose proof (proj1 (check_le_nil _ _ _) E _ eq_refl). auto.
Qed.

(** A request that breaks a bound is refused. *)
Lemma bind_rejects (r : Request.t) :
  out_of_bounds r ->
  exists bad, bad <> [] /\ bind r = Raise (RequestValidationError bad).
Proof.
  intros Hout. unfold bind.
  destruct (_ ++ _)%list as [|x bad] eqn:E;
    [exfalso | eexists; split; [|reflexivity]; discriminate].
  repeat (apply app_eq_nil in E; destruct E as [?E E]).
  destruct Hout as [(v & Hv & Hneg) | [(v & Hv & Hneg) | [(v & Hv & Hneg)
                    | [(v & Hv & Hneg) | (n & Hn & Hneg)]]]].
  - pose proof (proj1 (check_ge_nil _ _ _) E0 v Hv). lia.
  - pose proof (proj1 (check_ge_nil _ _ _) E1 v Hv). lia.
  - pose proof (proj1 (check_ge_nil _ _ _) E2 v Hv). lia.
  - rewrite Hv in E3. apply check_ge_float_nil in E3. congruence.
  - rewrite Hn in E4, E. unfold default in E4, E.
    pose proof (proj1 (check_ge_nil _ _ _) E4 _ eq_refl).
    pose proof (proj1 (check_le_nil _ _ _) E _ eq_refl). lia.
Qed.

End BindingFacts.

(** ** The response of one record *)

Section ResponseClaims.










(** C6: in the response built from a record, every field among currency,
    country, bedrooms, bathrooms, property_type, images and features whose
    key is missing carries its declared default; [images] and [features]
    are lists in every response. *)
Theorem defaults_applied (d : Raw.document) (r : PropertyResponse.t) :
  response_of d = Ok r ->
  (Raw.currency d = Missing -> PropertyResponse.currency r = "USD")
  /\ (Raw.country d = Missing -> PropertyResponse.country r = "USA")
  /\ (Raw.bedrooms d = Missing -> PropertyResponse.bedrooms r = 0)
  /\ (Raw.bathrooms d = Missing -> PropertyResponse.bathrooms r = float_zero)
  /\ (Raw.property_type d = Missing -> PropertyResponse.property_type r = "house")
  /\ (Raw.images d = Missing -> PropertyResponse.images r = [])
  /\ (Raw.features d = Missing -> PropertyResponse.features r = []).
Proof.
  intros H. apply response_of_fields in H.
  destruct H as (_ & H1 & H2 & H3 & H4 & H5 & H6 & H7).
  repeat split; intros E; eapply get_default_missing; eassumption.
Qed.

Lemma defaults_applied_witness :
  exists r,
    response_of (listing "a1" "Loft" "Austin" 100) = Ok r
    /\ PropertyResponse.currency r = "USD"
    /\ PropertyResponse.country r = "USA"
    /\ PropertyResponse.bedrooms r = 0
    /\ PropertyResponse.bathrooms r = float_zero
    /\ PropertyResponse.property_type r = "house"
    /\ PropertyResponse.images r = []
    /\ PropertyResponse.features r = [].
Proof.
  eexists. split; [reflexivity|].
  destruct (defaults_applied (listing "a1" "Loft" "Austin" 100) _ eq_refl)
    as (H1 & H2 & H3 & H4 & H5 & H6 & H7).
  split; [apply H1; reflexivity|]. split; [apply H2; reflexivity|].
  split; [apply H3; reflexivity|]. split; [apply H4; reflexivity|].
  split; [apply H5; reflexivity|]. split; [apply H6; reflexivity|].
  apply H7; reflexivity.
Defined.

End ResponseClaims.

(** ** The search as a whole *)

Section SearchClaims.

Lemma selected_in_range (E : Engine.t) (a : Params.t) (d : Raw.document)
      (price : Z) :
  selects E (filter_query a) d -> Raw.price d = Stored price ->
  in_range a price.
Proof.
  intros Hs Hp. apply selects_filter_query in Hs.
  destruct Hs as (_ & _ & Hprice & _).
  apply selects_price in Hprice. destruct Hprice as [Hlo Hhi].
  split; intros b Hb.
  - destruct (Hlo b Hb) as (v & Hv & Hle). congruence.
  - destruct (Hhi b Hb) as (v & Hv & Hle). congruence.
Qed.

Lemma inverted_selects_nothing (E : Engine.t) (a : Params.t) (lo hi : Z)
      (d : Raw.document) :
  Params.min_price a = Some lo -> Params.max_price a = Some hi -> hi < lo ->
  ~ selects E (filter_query a) d.
Proof.
  intros Hlo Hhi Hinv Hs. apply selects_filter_query in Hs.
  destruct Hs as (_ & _ & Hprice & _).
  apply selects_price in Hprice. destruct Hprice as [H1 H2].
  destruct (H1 lo Hlo) as (v & Hv & Hle).
  destruct (H2 hi Hhi) as (v' & Hv' & Hle').
  assert (v = v') by congruence. lia.
Qed.

(** C4, as stated, fails: with a minimum of 2^63 above a maximum of 5 the
    search does not return an empty list: the driver cannot encode the
    minimum and raises before anything is sent. *)
Lemma inverted_bounds_can_fail :
  list_properties (Some five) (criteria None (Some (2 ^ 63)) (Some 5) None 50)
  = (Raise OverflowError, []).
Proof. reflexivity. Qed.

(** C4 (amended): every response returned by the search has its price
    inside the bounds that are present.  When the minimum exceeds the
    maximum the filter selects no record, so what the search returns is the
    empty list, and it does return it when the integers of the criteria fit
    in eight bytes and the engine accepts the text patterns.  If not, the
    search fails as it does for any bounds: on the integer, before anything
    is sent, or else on the pattern. *)
Theorem price_bounds_respected (store : Store.database) (a : Params.t) :
  (forall results calls r,
      list_properties (Some store) a = (Ok results, calls) ->
      In r results -> in_range a (PropertyResponse.price r))
  /\ (forall lo hi,
         Params.min_price a = Some lo -> Params.max_price a = Some hi ->
         hi < lo ->
         (forall d, ~ selects (Store.engine store) (filter_query a) d)
         /\ (forall results calls,
                list_properties (Some store) a = (Ok results, calls) ->
                results = [])
         /\ (integers_encodable a = true ->
             patterns_accepted (Store.engine store) a ->
             list_properties (Some store) a
             = (Ok [], [Store.Find "property" (filter_query a)
                          (Params.limit a)]))
         /\ (integers_encodable a = false ->
             list_properties (Some store) a = (Raise OverflowError, []))
         /\ (integers_encodable a = true ->
             ~ patterns_accepted (Store.engine store) a ->
             list_properties (Some store) a
             = (Raise OperationFailure,
                [Store.Find "property" (filter_query a) (Params.limit a)]))).
Proof.
  split.
  - intros results calls r H Hin.
    destruct (list_properties_selected _ _ _ _ _ H Hin) as (d & _ & Hs & Hr).
    apply response_of_fields in Hr. destruct Hr as (Hp & _).
    exact (selected_in_range _ a d _ Hs Hp).
  - intros lo hi Hlo Hhi Hinv.
    assert (Hnone : forall d, ~ selects (Store.engine store) (filter_query a) d)
      by (intros d; exact (inverted_selects_nothing _ a lo hi d Hlo Hhi Hinv)).
    split; [exact Hnone|].
    pose proof (list_properties_nothing store a Hnone) as Hrun.
    pose proof (interpreted_filter_query (Store.engine store) a) as Hint.
    unfold interpreted in Hint.
    destruct (integers_encodable a);
      [destruct (Store.compile (Store.engine store) (filter_query a)) as [p|]|];
      rewrite Hrun; (split; [|split; [|split]]).
    + intros results calls H. now injection H.
    + reflexivity.
    + intros H. discriminate H.
    + intros _ Hacc. exfalso. apply Hacc. apply Hint. now exists p.
    + intros results calls H. discriminate H.
    + intros _ Hacc. apply Hint in Hacc. destruct Hacc as (p & Hp).
      discriminate Hp.
    + intros H. discriminate H.
    + reflexivity.
    + intros results calls H. discriminate H.
    + intros H. discriminate H.
    + reflexivity.
    + intros H. discriminate H.
Qed.

Lemma price_bounds_respected_witness :
  (exists results calls,
      list_properties (Some five) (criteria None (Some 150) (Some 350) None 50)
      = (Ok results, calls)
      /\ map PropertyResponse.id results = ["a2"; "a3"]
      /\ Forall (fun r => in_range (criteria None (Some 150) (Some 350) None 50)
                            (PropertyResponse.price r)) results)
  /\ list_properties (Some five) (criteria None (Some 350) (Some 150) None 50)
     = (Ok [], [Store.Find "property"
                  [("status", QScalar (SStr "sale"));
                   ("price", QOps [("$gte", SInt 350); ("$lte", SInt 150)])]
                  50]).
Proof.
  split.
  - eexists. eexists. split; [reflexivity|]. split; [reflexivity|].
    apply Forall_forall. intros r Hin.
    destruct (price_bounds_respected five
                (criteria None (Some 150) (Some 350) None 50)) as [H _].
    exact (H _ _ r eq_refl Hin).
  - destruct (price_bounds_respected five
                (criteria None (Some 350) (Some 150) None 50)) as [_ H].
    destruct (H 350 150 eq_refl eq_refl) as (_ & _ & Hempty & _); [lia|].
    apply Hempty; [reflexivity|].
    repeat split.
Defined.

(** C7: the list returned for a request is no longer than its cap, which
    is 50 when the request gives none; the one query sent to the store
    carries that cap and the status of the request, which is ["sale"]
    when the request gives none. *)
Theorem result_cap_and_defaults (db : option Store.database) (r : Request.t)
        (results : list PropertyResponse.t) (calls : list Store.call) :
  get_properties db r = (Ok results, calls) ->
  Z.of_nat (List.length results) <= default (Request.limit r) 50
  /\ exists fq,
      calls = [Store.Find "property" fq (default (Request.limit r) 50)]
      /\ PyDict.get fq "status"
         = Some (QScalar (SStr (default (Request.status r) "sale"))).
Proof.
  unfold get_properties. destruct (bind r) as [a| |] eqn:Eb; try discriminate.
  destruct (bind_ok r a Eb) as (Hlimit & Hstatus & Hrange).
  destruct db as [store|]; [|discriminate].
  intros H.
  destruct (list_properties_ok _ _ _ _ H) as (-> & p & docs & Hp & -> & HF).
  rewrite <- Hlimit, <- Hstatus. split.
  - rewrite <- (Forall2_same_length _ _ _ HF). apply limit_length. lia.
  - exists (filter_query a). split; [reflexivity|].
    rewrite filter_query_clauses. reflexivity.
Qed.

Lemma result_cap_and_defaults_witness :
  exists results,
    get_properties (Some five) (request None None None (Some 1))
    = (Ok results, [Store.Find "property" [("status", QScalar (SStr "sale"))] 1])
    /\ List.length results = 1%nat
    /\ Z.of_nat (List.length results) <= 1.
Proof.
  eexists. split; [reflexivity|]. split; [reflexivity|].
  exact (proj1 (result_cap_and_defaults (Some five)
                  (request None None None (Some 1)) _ _ eq_refl)).
Defined.

(** C8: a request with a negative [min_price], [max_price], [bedrooms] or
    [bathrooms], or with a cap outside 1..200, is refused by the binding
    of the parameters: the route is not entered and the store receives no
    query. *)
Theorem invalid_request_rejected (db : option Store.database) (r : Request.t) :
  out_of_bounds r ->
  exists bad,
    bad <> []
    /\ get_properties db r = (Raise (RequestValidationError bad), []).
Proof.
  intros H. destruct (bind_rejects r H) as (bad & Hbad & E).
  exists bad. split; [exact Hbad|].
  unfold get_properties. now rewrite E.
Qed.

Lemma invalid_request_rejected_witness :
  exists bad,
    bad <> []
    /\ get_properties (Some five) (request (Some (-1)) None None (Some 201))
       = (Raise (RequestValidationError bad), []).
Proof.
  apply (invalid_request_rejected (Some five)
           (request (Some (-1)) None None (Some 201))).
  left. exists (-1). split; [reflexivity | lia].
Defined.

(** C9: without a store handle [list_properties] raises its
    "Database not available" exception, whatever the criteria, and sends
    the store nothing. *)
Theorem store_unavailable (a : Params.t) :
  list_properties None a = (Raise unavailable, []).
Proof. reflexivity. Qed.

(** The same at the route: a request is refused by the binding or meets
    the exception of [list_properties]; no query is sent either way. *)
Lemma store_unavailable_route (r : Request.t) :
  (exists bad, get_properties None r = (Raise (RequestValidationError bad), []))
  \/ get_properties None r = (Raise unavailable, []).
Proof.
  unfold get_properties, bind.
  destruct (_ ++ _)%list; [right | left; eexists]; reflexivity.
Qed.

End SearchClaims.

(** ** More on the search: what it returns *)

Section SearchResults.

(** The values a model passes through unchanged. *)
Lemma new_ok_passed id title status price currency address city state country
      bedrooms bathrooms property_type area_sqft lot_size_sqft year_built
      parking_spaces hoa_fee description images features r :
  PropertyResponse.new id title status price currency address city state
    country bedrooms bathrooms property_type area_sqft lot_size_sqft
    year_built parking_spaces hoa_fee description images features = Ok r ->
  PropertyResponse.id r = id
  /\ PropertyResponse.state r = state
  /\ PropertyResponse.area_sqft r = area_sqft
  /\ PropertyResponse.lot_size_sqft r = lot_size_sqft
  /\ PropertyResponse.year_built r = year_built
  /\ PropertyResponse.parking_spaces r = parking_spaces
  /\ PropertyResponse.hoa_fee r = hoa_fee
  /\ PropertyResponse.description r = description.
Proof.
  unfold PropertyResponse.new.
  destruct title; [|discriminate]. destruct status; [|discriminate].
  destruct price; [|discriminate]. destruct currency; [|discriminate].
  destruct address; [|discriminate]. destruct city; [|discriminate].
  destruct country; [|discriminate]. destruct bedrooms; [|discriminate].
  destruct bathrooms; [|discriminate].
  destruct property_type; [|discriminate].
  destruct images; [|discriminate]. destruct features; [|discriminate].
  intros H. injection H as <-. simpl. repeat split.
Qed.

Lemma get_default_stored {A : Type} (f : field A) (x v w : A) :
  get_default f x = Some w -> f = Stored v -> w = v.
Proof. intros H ->. simpl in H. now injection H. Qed.

Lemma response_of_id (d : Raw.document) (r : PropertyResponse.t) :
  response_of d = Ok r -> PropertyResponse.id r = doc_id d.
Proof.
  intros H. apply new_ok_passed in H. now destruct H as (H & _).
Qed.

Lemma responses_ids (docs : list Raw.document) (results : list PropertyResponse.t) :
  Forall2 (fun d r => response_of d = Ok r) docs results ->
  map PropertyResponse.id results = map doc_id docs.
Proof.
  induction 1 as [|d r docs results Hr HF IH]; simpl; [reflexivity|].
  now rewrite (response_of_id d r Hr), IH.
Qed.

(** X1: the responses stand, one for one and in the order of the store,
    for the first [limit] records the compiled filter accepts. *)
Theorem results_follow_store_order (store : Store.database) (a : Params.t)
        (results : list PropertyResponse.t) (calls : list Store.call) :
  list_properties (Some store) a = (Ok results, calls) ->
  exists p,
    Store.compile (Store.engine store) (filter_query a) = Some p
    /\ map PropertyResponse.id results
       = map doc_id (Store.limit (Params.limit a)
                       (List.filter p (Store.collection store "property"))).
Proof.
  intros H.
  destruct (list_properties_ok _ _ _ _ H) as (_ & p & docs & Hp & -> & HF).
  exists p. split; [exact Hp | now apply responses_ids].
Qed.

Lemma results_follow_store_order_witness :
  exists results calls,
    list_properties (Some five) (criteria None None None (Some "austin") 2)
    = (Ok results, calls)
    /\ map PropertyResponse.id results = ["a1"; "a3"].
Proof.
  eexists. eexists. split; [reflexivity|].
  destruct (results_follow_store_order five
              (criteria None None None (Some "austin") 2) _ _ eq_refl)
    as (p & Hp & Hids).
  rewrite Hids. injection Hp as <-. reflexivity.
Defined.

(** X2: with a cap of at least one, the number of responses is the smaller
    of the cap and the number of records the compiled filter accepts. *)
Theorem result_count (store : Store.database) (a : Params.t)
        (results : list PropertyResponse.t) (calls : list Store.call) :
  list_properties (Some store) a = (Ok results, calls) ->
  1 <= Params.limit a ->
  exists p,
    Store.compile (Store.engine store) (filter_query a) = Some p
    /\ List.length results
       = Nat.min (Z.to_nat (Params.limit a))
                 (List.length (List.filter p (Store.collection store "property"))).
Proof.
  intros H Hn.
  destruct (list_properties_ok _ _ _ _ H) as (_ & p & docs & Hp & -> & HF).
  exists p. split; [exact Hp|].
  rewrite <- (Forall2_same_length _ _ _ HF). unfold Store.limit.
  destruct (Z.eqb_spec (Params.limit a) 0) as [Heq|_]; [lia|].
  rewrite length_firstn. f_equal. lia.
Qed.

Lemma result_count_witness :
  exists results calls,
    list_properties (Some five) (criteria None None None None 1)
    = (Ok results, calls)
    /\ List.length results = 1%nat.
Proof.
  eexists. eexists. split; [reflexivity|].
  destruct (result_count five (criteria None None None None 1) _ _ eq_refl)
    as (p & Hp & Hlen); [simpl; lia|].
  rewrite Hlen. injection Hp as <-. reflexivity.
Defined.

Lemma response_of_cases (d : Raw.document) :
  (exists r, response_of d = Ok r)
  \/ (exists fields,
         fields <> [] /\ response_of d = Raise (ValidationError fields)).
Proof. unfold response_of. apply new_total. Qed.

Lemma collect_raises (docs : list Raw.document) (d : Raw.document) :
  In d docs -> complete d = false ->
  forall acc, exists fields,
      fields <> [] /\ collect docs acc = Raise (ValidationError fields).
Proof.
  induction docs as [|d0 docs IH]; intros Hin Hd acc; [contradiction|].
  simpl. destruct (response_of_cases d0) as [(r & Hr) | (fields & Hf & Hr)].
  - rewrite Hr. destruct Hin as [-> | Hin].
    + assert (Hc : complete d = true)
        by (apply response_of_ok_complete; now exists r).
      congruence.
    + now apply IH.
  - rewrite Hr. now exists fields.
Qed.

(** X3: one record among those fetched from which no response can be built
    fails the whole request with a validation error; no partial list is
    returned. *)
Theorem incomplete_record_fails_request (store : Store.database) (a : Params.t)
        (docs : list Raw.document) (calls : list Store.call) (d : Raw.document) :
  Store.find store "property" (filter_query a) (Params.limit a)
  = (Ok docs, calls) ->
  In d docs -> complete d = false ->
  exists fields,
    fields <> []
    /\ fst (list_properties (Some store) a) = Raise (ValidationError fields).
Proof.
  intros Hfind Hin Hd. unfold list_properties. rewrite Hfind.
  destruct (collect_raises _ d Hin Hd []) as (fields & Hf & Hc).
  exists fields. split; [exact Hf|]. simpl. exact Hc.
Qed.

Lemma incomplete_record_fails_request_witness :
  exists fields,
    fields <> []
    /\ fst (list_properties (Some mixed) (criteria None None None None 50))
       = Raise (ValidationError fields).
Proof.
  eapply (incomplete_record_fails_request mixed
            (criteria None None None None 50) _ _ (untitled "b1" "Austin" 100)).
  - reflexivity.
  - right. left. reflexivity.
  - reflexivity.
Defined.

Lemma response_of_required (d : Raw.document) (r : PropertyResponse.t) :
  response_of d = Ok r ->
  Raw.title d = Stored (PropertyResponse.title r)
  /\ Raw.status d = Stored (PropertyResponse.status r)
  /\ Raw.address d = Stored (PropertyResponse.address r)
  /\ Raw.city d = Stored (PropertyResponse.city r).
Proof.
  intros H. apply new_ok_inv in H.
  destruct H as (H1 & H2 & _ & _ & H5 & H6 & _).
  apply get_present in H1, H2, H5, H6. now repeat split.
Qed.

(** X4: every response returned carries the status that was asked for. *)
Theorem results_have_requested_status (store : Store.database) (a : Params.t)
        (results : list PropertyResponse.t) (calls : list Store.call)
        (r : PropertyResponse.t) :
  list_properties (Some store) a = (Ok results, calls) -> In r results ->
  PropertyResponse.status r = Params.status a.
Proof.
  intros H Hin.
  destruct (list_properties_selected _ _ _ _ _ H Hin) as (d & _ & Hs & Hr).
  apply selects_filter_query in Hs. destruct Hs as (Hstatus & _).
  apply selects_status in Hstatus.
  apply response_of_required in Hr. destruct Hr as (_ & Hr & _).
  congruence.
Qed.

Lemma results_have_requested_status_witness :
  exists results calls,
    list_properties (Some five) (criteria None None None None 50)
    = (Ok results, calls)
    /\ Forall (fun r => PropertyResponse.status r = "sale") results.
Proof.
  eexists. eexists. split; [reflexivity|].
  apply Forall_forall. intros r Hin.
  exact (results_have_requested_status five
           (criteria None None None None 50) _ _ r eq_refl Hin).
Defined.

(** X5: every response returned has at least the bedrooms asked for. *)
Theorem results_have_enough_bedrooms (store : Store.database) (a : Params.t)
        (results : list PropertyResponse.t) (calls : list Store.call)
        (r : PropertyResponse.t) (n : Z) :
  list_properties (Some store) a = (Ok results, calls) -> In r results ->
  Params.bedrooms a = Some n ->
  n <= PropertyResponse.bedrooms r.
Proof.
  intros H Hin Hn.
  destruct (list_properties_selected _ _ _ _ _ H Hin) as (d & _ & Hs & Hr).
  apply selects_filter_query in Hs. destruct Hs as (_ & _ & _ & Hb & _).
  destruct (proj1 (selects_bedrooms _ a d) Hb n Hn) as (v & Hv & Hle).
  apply response_of_fields in Hr. destruct Hr as (_ & _ & _ & Hr & _).
  now rewrite (get_default_stored _ _ v _ Hr Hv).
Qed.

Lemma results_have_enough_bedrooms_witness :
  exists results calls,
    list_properties (Some homes) (rooms (Some 2) None) = (Ok results, calls)
    /\ map PropertyResponse.id results = ["h2"; "h3"]
    /\ Forall (fun r => 2 <= PropertyResponse.bedrooms r) results.
Proof.
  eexists. eexists. split; [reflexivity|]. split; [reflexivity|].
  apply Forall_forall. intros r Hin.
  exact (results_have_enough_bedrooms homes (rooms (Some 2) None) _ _ r 2
           eq_refl Hin eq_refl).
Defined.

(** Comparing two doubles the other way round gives the opposite answer. *)
Lemma SFcompare_antisym (x y : float) :
  SFcompare y x = option_map CompOpp (SFcompare x y).
Proof.
  destruct x as [[|]|[|]| |[|] m e], y as [[|]|[|]| |[|] m' e'];
    simpl; try reflexivity;
    rewrite (Z.compare_antisym e e');
    destruct (e ?= e'); simpl; try reflexivity;
    now rewrite (Pos.compare_cont_antisym m m' Eq).
Qed.

(** The entry of a bathrooms minimum that passed the binding. *)
Lemma selects_bathrooms (E : Engine.t) (a : Params.t) (v : float)
      (d : Raw.document) :
  Params.bathrooms a = Some v -> float_le float_zero v = true ->
  selects E (bathrooms_clause a) d <->
  exists b, Raw.bathrooms d = Stored b /\ float_le v b = true.
Proof.
  intros Hv Hpos. unfold bathrooms_clause, selects, Store.matches. rewrite Hv.
  simpl.
  change (Raw.lookup "bathrooms" d) with (view VFloat (Raw.bathrooms d)).
  assert (Hnan : Store.is_nan (Store.NFloat v) = false)
    by (destruct v as [[|]|[|]| |[|] m e]; try reflexivity; discriminate Hpos).
  destruct (Raw.bathrooms d) as [| |b]; simpl.
  - split; [discriminate | intros (b & Hb & _); discriminate Hb].
  - split; [discriminate | intros (b & Hb & _); discriminate Hb].
  - simpl in Hnan. rewrite Hnan, andb_true_r.
    assert (Hex : (exists x, Stored b = Stored x /\ float_le v x = true)
                  <-> float_le v b = true).
    { split; [intros (x & Hx & Hle); injection Hx as <-; exact Hle
             | intros Hle; now exists b]. }
    rewrite Hex. clear Hex. unfold float_le, SFleb.
    rewrite (SFcompare_antisym b v).
    destruct (SFcompare b v) as [[| |]|] eqn:Heq; simpl;
      try (split; intros H; try discriminate H; reflexivity).
    destruct b as [[|]|[|]| |[|] m e], v as [[|]|[|]| |[|] m' e'];
      simpl in Heq; try discriminate Heq; try discriminate Hnan;
      (split; intros H; discriminate H).
Qed.

(** X6: for a bathrooms minimum that is at least zero, as the binding
    requires, every response returned has at least the bathrooms asked
    for. *)
Theorem results_have_enough_bathrooms (store : Store.database) (a : Params.t)
        (results : list PropertyResponse.t) (calls : list Store.call)
        (r : PropertyResponse.t) (v : float) :
  list_properties (Some store) a = (Ok results, calls) -> In r results ->
  Params.bathrooms a = Some v -> float_le float_zero v = true ->
  float_le v (PropertyResponse.bathrooms r) = true.
Proof.
  intros H Hin Hv Hpos.
  destruct (list_properties_selected _ _ _ _ _ H Hin) as (d & _ & Hs & Hr).
  apply selects_filter_query in Hs. destruct Hs as (_ & _ & _ & _ & Hb & _).
  destruct (proj1 (selects_bathrooms _ a v d Hv Hpos) Hb) as (b & Hsb & Hle).
  apply response_of_fields in Hr. destruct Hr as (_ & _ & _ & _ & Hr & _).
  now rewrite (get_default_stored _ _ b _ Hr Hsb).
Qed.

Lemma results_have_enough_bathrooms_witness :
  exists results calls,
    list_properties (Some homes) (rooms None (Some one_and_a_half))
    = (Ok results, calls)
    /\ map PropertyResponse.id results = ["h1"; "h2"]
    /\ Forall (fun r => float_le one_and_a_half (PropertyResponse.bathrooms r)
                        = true) results.
Proof.
  eexists. eexists. split; [reflexivity|]. split; [reflexivity|].
  apply Forall_forall. intros r Hin.
  exact (results_have_enough_bathrooms homes (rooms None (Some one_and_a_half))
           _ _ r one_and_a_half eq_refl Hin eq_refl eq_refl).
Defined.

End SearchResults.

(** ** More on the binding and on the filter *)

Section BindingAndFilter.

Lemma check_ge_float_iff (name : string) (bound : float) (o : option float) :
  check_ge_float name bound o = []
  <-> forall v, o = Some v -> float_le bound v = true.
Proof.
  unfold check_ge_float. destruct o as [v|].
  - destruct (float_le bound v) eqn:Heq; split; intros H.
    + intros x Hx. now injection Hx as <-.
    + reflexivity.
    + discriminate H.
    + specialize (H v eq_refl). congruence.
  - split; [intros _ v Hv; discriminate Hv | reflexivity].
Qed.

Lemma checks_accepted (r : Request.t) :
  (check_ge "min_price" 0 (Request.min_price r)
   ++ check_ge "max_price" 0 (Request.max_price r)
   ++ check_ge "bedrooms" 0 (Request.bedrooms r)
   ++ check_ge_float "bathrooms" float_zero (Request.bathrooms r)
   ++ check_ge "limit" 1 (Some (default (Request.limit r) 50))
   ++ check_le "limit" 200 (Some (default (Request.limit r) 50)))%list = []
  <-> accepted r.
Proof.
  unfold accepted. split.
  - intros Heq. repeat (apply app_eq_nil in Heq; destruct Heq as [?Hc Heq]).
    pose proof (proj1 (check_ge_nil _ _ _) Hc).
    pose proof (proj1 (check_ge_nil _ _ _) Hc0).
    pose proof (proj1 (check_ge_nil _ _ _) Hc1).
    pose proof (proj1 (check_ge_float_iff _ _ _) Hc2).
    pose proof (proj1 (check_ge_nil _ _ _) Hc3 _ eq_refl).
    pose proof (proj1 (check_le_nil _ _ _) Heq _ eq_refl).
    repeat split; assumption.
  - intros (H1 & H2 & H3 & H4 & H5 & H6).
    rewrite (proj2 (check_ge_nil "min_price" 0 _) H1).
    rewrite (proj2 (check_ge_nil "max_price" 0 _) H2).
    rewrite (proj2 (check_ge_nil "bedrooms" 0 _) H3).
    rewrite (proj2 (check_ge_float_iff "bathrooms" float_zero _) H4).
    rewrite (proj2 (check_ge_nil "limit" 1 (Some (default (Request.limit r) 50)))).
    + rewrite (proj2 (check_le_nil "limit" 200
                        (Some (default (Request.limit r) 50)))).
      * reflexivity.
      * intros v Hv. injection Hv as <-. exact H6.
    + intros v Hv. injection Hv as <-. exact H5.
Qed.

(** X7: the binding accepts exactly the requests inside every bound, the
    bounds themselves included, and hands the route their parameters
    unchanged, with ["sale"] and 50 for a status and a cap left out. *)
Theorem bind_accepts_exactly (r : Request.t) :
  (accepted r -> bind r = Ok (forwarded r))
  /\ (forall a, bind r = Ok a -> accepted r /\ a = forwarded r).
Proof.
  split.
  - intros H. unfold bind. now rewrite (proj2 (checks_accepted r) H).
  - intros a. unfold bind.
    destruct (_ ++ _)%list as [|x bad] eqn:Heq; [|discriminate].
    intros H. injection H as <-.
    split; [now apply checks_accepted | reflexivity].
Qed.

Lemma bind_accepts_exactly_witness :
  bind (request (Some 0) None (Some 0) (Some 200))
  = Ok (forwarded (request (Some 0) None (Some 0) (Some 200))).
Proof.
  apply (proj1 (bind_accepts_exactly (request (Some 0) None (Some 0) (Some 200)))).
  unfold accepted. simpl.
  repeat split; try (intros v Hv; try discriminate Hv; injection Hv as <-);
    lia.
Defined.

Lemma equal_ci_occurs (E : Engine.t) (q q' s : string) :
  equal_ci E q q' -> occurs_ci E q s -> occurs_ci E q' s.
Proof.
  unfold equal_ci. intros Heq (pre & mid & post & Hs & Hm).
  exists pre, mid, post. split; [exact Hs|]. unfold equal_ci. congruence.
Qed.

Lemma equal_ci_text_occurs (E : Engine.t) (q q' : string) (d : Raw.document) :
  equal_ci E q q' -> text_occurs E q d -> text_occurs E q' d.
Proof.
  intros Heq. unfold text_occurs, field_occurs.
  intros [(s & Hs & Ho) | [(s & Hs & Ho) | [(s & Hs & Ho) | (s & Hs & Ho)]]];
    [left | right; left | right; right; left | right; right; right];
    exists s; (split; [exact Hs | exact (equal_ci_occurs E q q' s Heq Ho)]).
Qed.

(** X8: the letter case of a plain free text does not matter: two
    non-empty texts without metacharacters that are equal up to case
    select the same records. *)
Theorem free_text_ignores_case (E : Engine.t) (a : Params.t) (q q' : string)
        (d : Raw.document) :
  Params.q a = Some q -> q <> EmptyString -> Regex.plain q = true ->
  q' <> EmptyString -> Regex.plain q' = true -> equal_ci E q q' ->
  selects E (filter_query a) d <-> selects E (filter_query (with_q (Some q') a)) d.
Proof.
  intros Hq Hne Hp Hne' Hp' Heq. rewrite !selects_filter_query.
  change (status_clause (with_q (Some q') a)) with (status_clause a).
  change (price_clause (with_q (Some q') a)) with (price_clause a).
  change (bedrooms_clause (with_q (Some q') a)) with (bedrooms_clause a).
  change (bathrooms_clause (with_q (Some q') a)) with (bathrooms_clause a).
  change (Params.city (with_q (Some q') a)) with (Params.city a).
  change (Params.state (with_q (Some q') a)) with (Params.state a).
  change (Params.property_type (with_q (Some q') a))
    with (Params.property_type a).
  rewrite (selects_q E a q d Hq Hne Hp).
  rewrite (selects_q E (with_q (Some q') a) q' d eq_refl Hne' Hp').
  assert (Hiff : text_occurs E q d <-> text_occurs E q' d).
  { split; apply equal_ci_text_occurs; [exact Heq | now symmetry]. }
  tauto.
Qed.

Lemma free_text_ignores_case_witness :
  selects sample (filter_query (criteria (Some "loft") None None None 50))
          (listing "a1" "Loft" "Austin" 100)
  <-> selects sample (filter_query (with_q (Some "LOFT")
                               (criteria (Some "loft") None None None 50)))
              (listing "a1" "Loft" "Austin" 100).
Proof.
  apply (free_text_ignores_case sample (criteria (Some "loft") None None None 50)
           "loft" "LOFT");
    try reflexivity; discriminate.
Defined.

(** X9: criteria only narrow the search: a record the filter selects is
    still selected once the free text, or any one of city, state and
    property type, is left out, whatever these hold. *)
Theorem criteria_only_narrow (E : Engine.t) (a : Params.t) (d : Raw.document) :
  selects E (filter_query a) d ->
  selects E (filter_query (without_q a)) d
  /\ forall k, selects E (filter_query (without k a)) d.
Proof.
  intros H. apply selects_filter_query in H.
  destruct H as (H1 & H2 & H3 & H4 & H5 & H6 & H7 & H8).
  pose proof (selects_nil E d) as Hnil.
  split; [|intros k]; apply selects_filter_query.
  - change (q_clause (without_q a)) with (@nil (string * qvalue)).
    repeat split; assumption.
  - destruct k; repeat split; assumption.
Qed.

Lemma criteria_only_narrow_witness :
  selects sample
    (filter_query (criteria (Some "Loft|Barn") (Some 50) None (Some "austin") 50))
    (listing "a1" "Loft" "Austin" 100)
  /\ selects sample
       (filter_query (without_q (criteria (Some "Loft|Barn") (Some 50) None
                                  (Some "austin") 50)))
       (listing "a1" "Loft" "Austin" 100)
  /\ selects sample
       (filter_query (without City (criteria (Some "Loft|Barn") (Some 50) None
                                     (Some "austin") 50)))
       (listing "a1" "Loft" "Austin" 100).
Proof.
  split; [reflexivity|].
  destruct (criteria_only_narrow sample
              (criteria (Some "Loft|Barn") (Some 50) None (Some "austin") 50)
              (listing "a1" "Loft" "Austin" 100) eq_refl) as [H1 H2].
  split; [exact H1 | exact (H2 City)].
Defined.

(** X10: a request costs the store one query or none.  The store receives
    one [find], on the collection [property] with the filter of the route
    and a cap between 1 and 200, exactly when the binding accepts the
    request, the handle is there and the driver can encode the integers of
    the criteria; in every other case it receives nothing. *)
Theorem at_most_one_query (db : option Store.database) (r : Request.t) :
  (forall a store,
      bind r = Ok a -> db = Some store -> integers_encodable a = true ->
      1 <= Params.limit a <= 200
      /\ snd (get_properties db r)
         = [Store.Find "property" (filter_query a) (Params.limit a)])
  /\ ((forall a, bind r <> Ok a) \/ db = None
      \/ (exists a, bind r = Ok a /\ integers_encodable a = false) ->
      snd (get_properties db r) = []).
Proof.
  unfold get_properties. split.
  - intros a store Hb -> Hint. rewrite Hb.
    split; [exact (proj2 (proj2 (bind_ok r a Hb)))|].
    unfold list_properties. rewrite find_route, Hint.
    destruct (Store.compile (Store.engine store) (filter_query a));
      reflexivity.
  - intros [Hno | [-> | (a & Hb & Hint)]].
    + destruct (bind r) as [a| |]; [now elim (Hno a) | reflexivity | reflexivity].
    + destruct (bind r); reflexivity.
    + rewrite Hb. destruct db as [store|]; [|reflexivity].
      unfold list_properties. now rewrite find_route, Hint.
Qed.

Lemma at_most_one_query_witness :
  snd (get_properties (Some five) (request (Some 150) None None (Some 2)))
  = [Store.Find "property"
       [("status", QScalar (SStr "sale")); ("price", QOps [("$gte", SInt 150)])]
       2]
  /\ snd (get_properties (Some five)
            (request (Some (2 ^ 63)) None None (Some 2))) = [].
Proof.
  split.
  - apply (proj1 (at_most_one_query (Some five)
                    (request (Some 150) None None (Some 2)))
             (forwarded (request (Some 150) None None (Some 2))) five);
      reflexivity.
  - apply (proj2 (at_most_one_query (Some five)
                    (request (Some (2 ^ 63)) None None (Some 2)))).
    right. right.
    exists (forwarded (request (Some (2 ^ 63)) None None (Some 2))).
    split; reflexivity.
Defined.

(** X11: a response shows what the record stores: the identifier as a
    string, the five fields without a default, every stored value of a
    field with a default, and each optional field, which is [None] when the
    key is missing or null. *)
Theorem stored_values_pass_through (d : Raw.document) (r : PropertyResponse.t) :
  response_of d = Ok r ->
  PropertyResponse.id r = doc_id d
  /\ Raw.title d = Stored (PropertyResponse.title r)
  /\ Raw.status d = Stored (PropertyResponse.status r)
  /\ Raw.price d = Stored (PropertyResponse.price r)
  /\ Raw.address d = Stored (PropertyResponse.address r)
  /\ Raw.city d = Stored (PropertyResponse.city r)
  /\ (forall v, Raw.currency d = Stored v -> PropertyResponse.currency r = v)
  /\ (forall v, Raw.country d = Stored v -> PropertyResponse.country r = v)
  /\ (forall v, Raw.bedrooms d = Stored v -> PropertyResponse.bedrooms r = v)
  /\ (forall v, Raw.bathrooms d = Stored v -> PropertyResponse.bathrooms r = v)
  /\ (forall v, Raw.property_type d = Stored v ->
                PropertyResponse.property_type r = v)
  /\ (forall v, Raw.images d = Stored v -> PropertyResponse.images r = v)
  /\ (forall v, Raw.features d = Stored v -> PropertyResponse.features r = v)
  /\ PropertyResponse.state r = get (Raw.state d)
  /\ PropertyResponse.area_sqft r = get (Raw.area_sqft d)
  /\ PropertyResponse.lot_size_sqft r = get (Raw.lot_size_sqft d)
  /\ PropertyResponse.year_built r = get (Raw.year_built d)
  /\ PropertyResponse.parking_spaces r = get (Raw.parking_spaces d)
  /\ PropertyResponse.hoa_fee r = get (Raw.hoa_fee d)
  /\ PropertyResponse.description r = get (Raw.description d).
Proof.
  intros H.
  destruct (response_of_required d r H) as (Ht & Hs & Ha & Hc).
  destruct (response_of_fields d r H) as (Hp & H1 & H2 & H3 & H4 & H5 & H6 & H7).
  unfold response_of in H. apply new_ok_passed in H.
  destruct H as (Hid & G1 & G2 & G3 & G4 & G5 & G6 & G7).
  repeat split; try assumption;
    intros v Hv; eapply get_default_stored; eassumption.
Qed.

Lemma stored_values_pass_through_witness :
  exists r,
    response_of (home "h1" 1 one_and_a_half) = Ok r
    /\ PropertyResponse.id r = "h1"
    /\ PropertyResponse.currency r = "EUR"
    /\ PropertyResponse.images r = ["u1"]
    /\ PropertyResponse.state r = None
    /\ PropertyResponse.area_sqft r = Some 900.
Proof.
  eexists. split; [reflexivity|].
  destruct (stored_values_pass_through (home "h1" 1 one_and_a_half) _ eq_refl)
    as (Hid & _ & _ & _ & _ & _ & Hcur & _ & _ & _ & _ & Himg & _ & Hst & Har & _).
  split; [exact Hid|]. split; [exact (Hcur "EUR" eq_refl)|].
  split; [exact (Himg ["u1"] eq_refl)|]. split; [exact Hst | exact Har].
Defined.

End BindingAndFilter.

(** ** The diagnostic route *)

Section Diagnostic.

(** X12: whatever the store handle is, the response reports under
    [database_url] and [database_name] only whether the environment
    variables [DATABASE_URL] and [DATABASE_NAME] are set to a non-empty
    value: what the handle wrote there, its name included, is replaced. *)
Theorem diagnostic_reports_environment (db : option Handle.t) (getenv : environ) :
  PyDict.get (test_database db getenv) "database_url"
  = Some (env_flag getenv "DATABASE_URL")
  /\ PyDict.get (test_database db getenv) "database_name"
     = Some (env_flag getenv "DATABASE_NAME").
Proof.
  unfold test_database, env_flag.
  destruct db as [[name [names|message]]|]; simpl; split; reflexivity.
Qed.

(** X13: the response always has the same six keys; it lists the first
    ten collection names of the handle at most, and none when there is no
    handle or the listing raises; and it says [Connected] exactly when
    there is a handle. *)
Theorem diagnostic_shape (db : option Handle.t) (getenv : environ) :
  map fst (test_database db getenv)
  = ["backend"; "database"; "database_url"; "database_name";
     "connection_status"; "collections"]
  /\ PyDict.get (test_database db getenv) "collections"
     = Some (JList (firstn 10 (listed db)))
  /\ (List.length (firstn 10 (listed db)) <= 10)%nat
  /\ (PyDict.get (test_database db getenv) "connection_status"
      = Some (JStr "Connected") <-> db <> None).
Proof.
  split; [|split; [|split; [apply firstn_le_length|]]].
  - destruct db as [[name [names|message]]|]; reflexivity.
  - destruct db as [[name [names|message]]|]; reflexivity.
  - destruct db as [[name [names|message]]|]; split; intros H;
      try discriminate; try reflexivity.
    now elim H.
Qed.

End Diagnostic.
